(** * Nebulae: the agent scaffolding, modelled and checked against its specification

    A shallow embedding of [agents/base_agent.py], [agents/summarizer_agent.py]
    and [agents/planner_agent.py].

    - Python values are the JSON-like fragment the agents exchange: [None],
      booleans, integers, strings, lists and dicts with string keys (the
      configs are JSON documents; every key the code reads is a string
      literal).  Floats are not represented.
    - A Python call that can raise is a computation in the error monad [exc].
    - [jsonschema.validate] is an optional third-party library: it is a
      parameter of the development (class [Jsonschema]).
    - [SummarizerAgent] and [PlannerAgent] are modelled method by method.
      Agents of any other class ([ResearchAgent], whose results are formatted
      text, and the subclasses a user writes) are run by an oracle (class
      [UserAgents]) that threads an abstract world state, so that
      "deterministic agent" is a hypothesis and not built in. *)

From Stdlib Require Import String Ascii List ZArith Bool Arith Lia.
From Stdlib Require Import DecimalString.
Import ListNotations.
Open Scope string_scope.
Open Scope list_scope.

(** ** Python values and exceptions *)

Module Py.

(** Lookup in an association list; the first binding of a key is the live
    one.  Dicts are kept in insertion order, as Python keeps them. *)
Fixpoint dict_lookup {A : Type} (k : string) (d : list (string * A)) : option A :=
  match d with
  | [] => None
  | (k', v) :: d' => if String.eqb k k' then Some v else dict_lookup k d'
  end.

(** A Python dict holds each key once; the association lists that stand
    for dicts built by the code and in the examples do too. *)
#[warnings="-register-all"]
Inductive value : Type :=
| VNone
| VBool (b : bool)
| VInt (z : Z)
| VStr (s : string)
| VList (l : list value)
| VDict (d : list (string * value)).

Definition dict := list (string * value).

(** The pieces of an f-string: literal text and [str()] of a value. *)
Inductive fpart : Type :=
| Lit (s : string)
| Fmt (v : value)
| Cause.  (* the text of a caught exception, [{e}] *)

Inductive exn : Type :=
| AttributeError (attr : string)
| TypeError
| KeyError (k : string)
| ValueError (msg : string)
| RuntimeError (msg : list fpart)
| AgentError (tag : string).  (* whatever a foreign agent class raises *)

Inductive exc (A : Type) : Type :=
| Ok (a : A)
| Raise (e : exn).
Arguments Ok {A} a.
Arguments Raise {A} e.

Definition ret {A} (a : A) : exc A := Ok a.

Definition bind {A B} (c : exc A) (k : A -> exc B) : exc B :=
  match c with
  | Ok a => k a
  | Raise e => Raise e
  end.

(** [mapM f l]: a comprehension [[f(x) for x in l]]; the first exception
    ends it. *)
Fixpoint mapM {A B} (f : A -> exc B) (l : list A) : exc (list B) :=
  match l with
  | [] => Ok []
  | x :: l' =>
      bind (f x) (fun y => bind (mapM f l') (fun ys => Ok (y :: ys)))
  end.

(** [[x for x in l if p(x)]] with a test that may raise. *)
Fixpoint filterM {A} (p : A -> exc bool) (l : list A) : exc (list A) :=
  match l with
  | [] => Ok []
  | x :: l' =>
      bind (p x) (fun b =>
      bind (filterM p l') (fun xs => Ok (if b then x :: xs else xs)))
  end.

(** [bool(v)] *)
Definition truthy (v : value) : bool :=
  match v with
  | VNone => false
  | VBool b => b
  | VInt z => negb (Z.eqb z 0)
  | VStr s => negb (String.eqb s "")
  | VList l => match l with [] => false | _ => true end
  | VDict d => match d with [] => false | _ => true end
  end.

(** [a == b].  [True == 1] and [False == 0] as in Python; lists compare
    element by element, dicts by their bindings whatever the order. *)
Fixpoint py_eq (a b : value) {struct a} : bool :=
  match a, b with
  | VNone, VNone => true
  | VBool x, VBool y => Bool.eqb x y
  | VBool x, VInt z => Z.eqb (Z.b2z x) z
  | VInt z, VBool x => Z.eqb z (Z.b2z x)
  | VInt x, VInt y => Z.eqb x y
  | VStr s, VStr t => String.eqb s t
  | VList l, VList m =>
      (fix eq_items (l m : list value) {struct l} : bool :=
         match l, m with
         | [], [] => true
         | x :: l', y :: m' => py_eq x y && eq_items l' m'
         | _, _ => false
         end) l m
  | VDict d, VDict e =>
      Nat.eqb (length d) (length e)
      && forallb (fun kv : string * value =>
                    match dict_lookup (fst kv) e with
                    | Some w => py_eq (snd kv) w
                    | None => false
                    end) d
  | _, _ => false
  end.

(** [v in l] for a list [l] *)
Definition contains (l : list value) (v : value) : bool :=
  existsb (fun x => py_eq v x) l.

Definition isinstance_dict (v : value) : bool :=
  match v with VDict _ => true | _ => false end.

(** [v.get(k, default)]: only dicts have the method. *)
Definition get (v : value) (k : string) (default : value) : exc value :=
  match v with
  | VDict d =>
      match dict_lookup k d with
      | Some x => Ok x
      | None => Ok default
      end
  | _ => Raise (AttributeError "get")
  end.

(** [v[k]] for a string [k] *)
Definition getitem (v : value) (k : string) : exc value :=
  match v with
  | VDict d =>
      match dict_lookup k d with
      | Some x => Ok x
      | None => Raise (KeyError k)
      end
  | _ => Raise TypeError
  end.

Fixpoint chars (s : string) : list value :=
  match s with
  | EmptyString => []
  | String c s' => VStr (String c EmptyString) :: chars s'
  end.

(** The items [for x in v] yields: the elements of a list, the characters
    of a string, the keys of a dict; anything else is not iterable. *)
Definition iter (v : value) : exc (list value) :=
  match v with
  | VList l => Ok l
  | VStr s => Ok (chars s)
  | VDict d => Ok (map (fun kv => VStr (fst kv)) d)
  | _ => Raise TypeError
  end.

(** [sep.join(items)]: every item must be a [str]. *)
Fixpoint join (sep : string) (items : list value) : exc string :=
  match items with
  | [] => Ok ""
  | VStr s :: rest =>
      match rest with
      | [] => Ok s
      | _ => bind (join sep rest) (fun t => Ok (s ++ sep ++ t)%string)
      end
  | _ :: _ => Raise TypeError
  end.

(** [v[:n]] *)
Definition slice_to (n : nat) (v : value) : exc value :=
  match v with
  | VStr s => Ok (VStr (substring 0 n s))
  | VList l => Ok (VList (firstn n l))
  | _ => Raise TypeError
  end.

End Py.

Export Py.

Declare Scope exc_scope.
Delimit Scope exc_scope with exc.
Notation "x <- c ;; k" := (bind c (fun x => k))
  (at level 100, c at next level, right associativity) : exc_scope.
Open Scope exc_scope.

(** ** The optional [jsonschema] dependency

    [jsonschema_validate instance schema] is [true] when
    [import jsonschema; jsonschema.validate(instance=..., schema=...)]
    returns, and [false] when anything in it raises (a validation error, a
    malformed schema, or the import itself when the package is absent). *)

Class Jsonschema : Type :=
  { jsonschema_validate : value -> value -> bool }.

(** A validator for the keywords the repository's test schemas use: [type],
    [required], [properties] and [items]; other keywords are read as
    annotations.  It stands for the library in the worked examples only. *)
Module Draft7.

Definition type_ok (name : value) (inst : value) : bool :=
  match name, inst with
  | VStr "object", VDict _ => true
  | VStr "array", VList _ => true
  | VStr "string", VStr _ => true
  | VStr "integer", VInt _ => true
  | VStr "number", VInt _ => true
  | VStr "boolean", VBool _ => true
  | VStr "null", VNone => true
  | _, _ => false
  end.

Definition has_key (inst : value) (k : value) : bool :=
  match inst, k with
  | VDict d, VStr s =>
      match dict_lookup s d with Some _ => true | None => false end
  | _, _ => false
  end.

Fixpoint validate (fuel : nat) (inst schema : value) : bool :=
  match fuel with
  | O => false
  | S fuel' =>
      match schema with
      | VBool b => b
      | VDict sch =>
          (match dict_lookup "type" sch with
           | Some (VList names) => existsb (fun n => type_ok n inst) names
           | Some name => type_ok name inst
           | None => true
           end)
          && (match dict_lookup "required" sch, inst with
              | Some (VList keys), VDict _ => forallb (has_key inst) keys
              | _, _ => true
              end)
          && (match dict_lookup "properties" sch, inst with
              | Some (VDict props), VDict d =>
                  forallb (fun kv : string * value =>
                             match dict_lookup (fst kv) d with
                             | Some x => validate fuel' x (snd kv)
                             | None => true
                             end) props
              | _, _ => true
              end)
          && (match dict_lookup "items" sch, inst with
              | Some items, VList l => forallb (fun x => validate fuel' x items) l
              | _, _ => true
              end)
      | _ => false
      end
  end.

(** The nesting depth of a value bounds the recursion. *)
Fixpoint depth (v : value) : nat :=
  match v with
  | VList l => S (fold_right (fun x n => Nat.max (depth x) n) 0 l)
  | VDict d => S (fold_right (fun kv n => Nat.max (depth (snd kv)) n) 0 d)
  | _ => 1
  end.

Definition jsonschema : Jsonschema :=
  {| jsonschema_validate := fun inst schema => validate (depth schema) inst schema |}.

End Draft7.

(** ** [agents/base_agent.py] *)

Module BaseAgent.

(** The concrete class of an agent object; [execute_task] is abstract in
    [BaseAgent] and resolved by the class. *)
Inductive agent_class : Type :=
| SummarizerAgentClass
| PlannerAgentClass
| ForeignClass (name : string).

(** The keyword arguments of [BaseAgent.__init__].  [logger] and
    [update_strategy] are opaque objects that no modelled method reads. *)
Record init_args : Type := {
  arg_agent_name : string;
  arg_agent_description : string;
  arg_agent_tools : option (list value);
  arg_llm : string;
  arg_agent_id : Z;
  arg_agent_config_dict : option dict;
  arg_agent_memory : value;
  arg_agent_persona : option string;
  arg_agent_prompt : option string;
  arg_verbose : bool;
  arg_agent_role : option string;
  arg_rag_enabled : value;
  arg_vector_store : option string;
  arg_interactions : option string;
  arg_show_logger : bool
}.

(** The attributes [__init__] sets on [self]. *)
Record t : Type := {
  cls : agent_class;
  llm : string;
  agent_name : string;
  agent_description : string;
  agent_id : Z;
  agent_config_dict : dict;
  agent_tools : list value;
  agent_memory : value;
  agent_persona : option string;
  agent_prompt : option string;
  verbose : bool;
  agent_role : value;
  interactions : value;
  rag_enabled : bool;
  vector_store : value;
  show_logger : bool;
  capabilities : list value;
  input_schema : value;
  output_schema : value
}.

(** [list(v)] *)
Definition to_list (v : value) : exc (list value) := iter v.

Definition of_opt_str (o : option string) : value :=
  match o with Some s => VStr s | None => VNone end.

(** [a or b] on values *)
Definition py_or (a b : value) : value := if truthy a then a else b.

(** [d.get(k)] and [d.get(k, default)] on a dict known to be one *)
Definition cfg_get (d : dict) (k : string) (default : value) : value :=
  match dict_lookup k d with Some v => v | None => default end.

(** [BaseAgent.__init__], lines 93-125; the logging at the end is output
    only. *)
Definition __init__ (c : agent_class) (a : init_args) : exc t :=
  let config : dict :=
    match arg_agent_config_dict a with Some d => d | None => [] end in
  tools <- match arg_agent_tools a with
           | Some l => Ok l
           | None => to_list (cfg_get config "tools" (VList []))
           end ;;
  let role :=
    match arg_agent_role a with
    | Some s => VStr s
    | None => py_or (cfg_get config "role" VNone) (cfg_get config "agent_role" VNone)
    end in
  let inter :=
    match arg_interactions a with
    | Some s => VStr s
    | None => cfg_get config "interactions" VNone
    end in
  rag <- (if truthy (arg_rag_enabled a) then Ok true
          else
            enabled <- get (cfg_get config "rag" (VDict [])) "enabled"
                           (cfg_get config "rag_enabled" (VBool false)) ;;
            Ok (truthy enabled)) ;;
  store <- match arg_vector_store a with
           | Some s => Ok (VStr s)
           | None =>
               let v := cfg_get config "vector_store" VNone in
               if truthy v then Ok v
               else get (cfg_get config "rag" (VDict [])) "vector_store" VNone
           end ;;
  caps <- to_list (cfg_get config "capabilities" (VList [])) ;;
  Ok {| cls := c;
        llm := arg_llm a;
        agent_name := arg_agent_name a;
        agent_description := arg_agent_description a;
        agent_id := arg_agent_id a;
        agent_config_dict := config;
        agent_tools := tools;
        agent_memory := arg_agent_memory a;
        agent_persona := arg_agent_persona a;
        agent_prompt := arg_agent_prompt a;
        verbose := arg_verbose a;
        agent_role := role;
        interactions := inter;
        rag_enabled := rag;
        vector_store := store;
        show_logger := arg_show_logger a;
        capabilities := caps;
        input_schema := cfg_get config "input_schema" VNone;
        output_schema := cfg_get config "output_schema" VNone |}.

(** The call [cls(agent_name=..., agent_description=..., llm=...,
    agent_id=...)]: the four required arguments, every other one omitted and
    so at the default of the signature ([rag_enabled=False], ...). *)
Definition defaults (name description model : string) (id : Z) : init_args :=
  {| arg_agent_name := name;
     arg_agent_description := description;
     arg_agent_tools := None;
     arg_llm := model;
     arg_agent_id := id;
     arg_agent_config_dict := None;
     arg_agent_memory := VNone;
     arg_agent_persona := None;
     arg_agent_prompt := None;
     arg_verbose := true;
     arg_agent_role := None;
     arg_rag_enabled := VBool false;
     arg_vector_store := None;
     arg_interactions := None;
     arg_show_logger := true |}.

(** [can_handle], lines 204-212 *)
Definition can_handle (self : t) (task : value) : exc bool :=
  if negb (isinstance_dict task) then Ok false
  else
    task_type <- get task "task_type" VNone ;;
    Ok (truthy task_type && contains (capabilities self) task_type).

(** [validate_input], lines 222-238.  The [try] catches every exception
    of the import and of the validation, so the method itself returns a
    boolean; the warning it logs is output only. *)
Definition validate_input `{Jsonschema} (self : t) (payload : value) : bool :=
  if negb (truthy (input_schema self)) then true
  else if jsonschema_validate payload (input_schema self) then true
  else false.

End BaseAgent.

(** ** [agents/summarizer_agent.py] *)

Module SummarizerAgent.

Definition __init__ (a : BaseAgent.init_args) : exc BaseAgent.t :=
  BaseAgent.__init__ BaseAgent.SummarizerAgentClass a.

(** The separator ["\n\n"] *)
Definition blank_line : string := String "010" (String "010" EmptyString).

(** [combined[:800] + "..." if len(combined) > 800 else combined] *)
Definition truncate (combined : string) : string :=
  if Nat.ltb 800 (String.length combined) then (substring 0 800 combined ++ "...")%string
  else combined.

Definition text_of (d : value) : exc value := get d "text" (VStr "").

Definition highlight_of (d : value) : exc value :=
  text <- text_of d ;; slice_to 200 text.

Definition source_of (d : value) : exc value :=
  id <- get d "id" VNone ;;
  title <- get d "title" VNone ;;
  Ok (VDict [("id", id); ("title", title)]).

(** [execute_task], lines 32-46 *)
Definition execute_task `{Jsonschema} (self : BaseAgent.t) (task : value) : exc value :=
  payload <- get task "payload" (VDict []) ;;
  if negb (BaseAgent.validate_input self payload)
  then Raise (ValueError "Invalid payload for SummarizerAgent")
  else
    documents <- get payload "documents" (VList []) ;;
    docs <- iter documents ;;
    texts <- mapM text_of docs ;;
    combined <- join blank_line texts ;;
    let summary := truncate combined in
    all_highlights <- mapM highlight_of docs ;;
    let highlights := firstn 3 all_highlights in
    sources <- mapM source_of docs ;;
    Ok (VDict [("summary", VStr summary);
               ("highlights", VList highlights);
               ("sources", VList sources)]).

End SummarizerAgent.

(** ** Agents of classes defined elsewhere

    A registry may hold any subclass of [BaseAgent].  What such an agent's
    [execute_task] does is unknown here: it reads and changes a world (its
    memory, a model, the network) and returns or raises. *)

Class UserAgents : Type := {
  World : Type;
  foreign_execute_task : BaseAgent.t -> value -> World -> exc value * World
}.

(** ** [agents/planner_agent.py] *)

Module PlannerAgent.

Record t : Type := {
  base : BaseAgent.t;
  registry : list BaseAgent.t
}.

(** [PlannerAgent.__init__]: [self.registry = registry or []] *)
Definition __init__ (a : BaseAgent.init_args) (reg : option (list BaseAgent.t)) : exc t :=
  b <- BaseAgent.__init__ BaseAgent.PlannerAgentClass a ;;
  Ok {| base := b; registry := match reg with Some l => l | None => [] end |}.

(** [decompose_goal], lines 36-46 *)
Definition decompose_goal (self : t) (goal : string) : list value :=
  [VDict [("task_id", VStr "t1");
          ("task_type", VStr "summarize_text");
          ("payload", VDict [("documents", VList []);
                             ("summary_length", VStr "short")]);
          ("dependencies", VList []);
          ("priority", VInt 50)]].

(** [select_agent_for_task], lines 48-59 *)
Definition select_agent_for_task `{Jsonschema} (self : t) (task : value)
  : exc (option BaseAgent.t) :=
  candidates <- filterM (fun a => BaseAgent.can_handle a task) (registry self) ;;
  match candidates with
  | [] => Ok None
  | _ :: _ =>
      payload <- get task "payload" (VDict []) ;;
      let valid_candidates :=
        filter (fun a => BaseAgent.validate_input a payload) candidates in
      match valid_candidates with
      | [] => Ok None
      | first :: _ => Ok (Some first)
      end
  end.

(** What a run of the planner leaves behind besides its return value: the
    world the foreign agents act on, and the calls made to agents' execution
    entrypoints, oldest first. *)
Inductive event : Type :=
| Dispatched (agent : BaseAgent.t) (task : value).

Record state `{UserAgents} : Type := {
  world : World;
  trace : list event
}.

Definition run `{UserAgents} (A : Type) : Type := state -> exc A * state.

Definition lift `{UserAgents} {A} (c : exc A) : run A := fun s => (c, s).

Definition rbind `{UserAgents} {A B} (c : run A) (k : A -> run B) : run B :=
  fun s =>
    match c s with
    | (Ok a, s') => k a s'
    | (Raise e, s') => (Raise e, s')
    end.

(** The virtual call [agent.execute_task(task)], recorded in the trace.
    [PlannerAgent.execute_task] is line 95. *)
Definition execute_task `{Jsonschema} `{UserAgents}
  (agent : BaseAgent.t) (task : value) : run value :=
  fun s =>
    let tr := trace s ++ [Dispatched agent task] in
    match BaseAgent.cls agent with
    | BaseAgent.SummarizerAgentClass =>
        (SummarizerAgent.execute_task agent task, {| world := world s; trace := tr |})
    | BaseAgent.PlannerAgentClass =>
        (Ok (VStr "Executing Task.."), {| world := world s; trace := tr |})
    | BaseAgent.ForeignClass _ =>
        let (r, w) := foreign_execute_task agent task (world s) in
        (r, {| world := w; trace := tr |})
    end.

(** [RuntimeError(f"Output validation failed: {e}")] *)
Definition output_validation_failed : exn :=
  RuntimeError [Lit "Output validation failed: "; Cause].

(** [RuntimeError(f"No agent available to handle task {task['task_id']}")] *)
Definition no_agent_available (id : value) : exn :=
  RuntimeError [Lit "No agent available to handle task "; Fmt id].

(** [dispatch_task], lines 61-82.  Every [BaseAgent] has the attribute
    [execute_task] (it is declared there), so for a registry of [BaseAgent]
    objects the first branch of the [hasattr] chain is the one taken. *)
Definition dispatch_task `{Jsonschema} `{UserAgents}
  (agent : BaseAgent.t) (task : value) : run value :=
  rbind (execute_task agent task) (fun result =>
    if truthy (BaseAgent.output_schema agent) then
      if jsonschema_validate result (BaseAgent.output_schema agent)
      then lift (Ok result)
      else lift (Raise output_validation_failed)
    else lift (Ok result)).

(** The mapping [results]: keys are task ids, in insertion order. *)
Definition results := list (value * value).

Definition hashable (k : value) : bool :=
  match k with
  | VList _ | VDict _ => false
  | _ => true
  end.

Fixpoint store (k v : value) (d : results) : results :=
  match d with
  | [] => [(k, v)]
  | (k', v') :: d' => if py_eq k k' then (k', v) :: d' else (k', v') :: store k v d'
  end.

(** [results[k] = v] *)
Definition setitem (d : results) (k v : value) : exc results :=
  if hashable k then Ok (store k v d) else Raise TypeError.

Fixpoint lookup (k : value) (d : results) : option value :=
  match d with
  | [] => None
  | (k', v) :: d' => if py_eq k k' then Some v else lookup k d'
  end.

(** The [for task in tasks] loop of [plan_and_execute], lines 87-92 *)
Fixpoint execute_tasks `{Jsonschema} `{UserAgents}
  (self : t) (tasks : list value) (acc : results) : run results :=
  match tasks with
  | [] => lift (Ok acc)
  | task :: rest =>
      rbind (lift (select_agent_for_task self task)) (fun agent =>
      match agent with
      | None =>
          rbind (lift (getitem task "task_id")) (fun id =>
          lift (Raise (no_agent_available id)))
      | Some agent =>
          rbind (dispatch_task agent task) (fun res =>
          rbind (lift (getitem task "task_id")) (fun id =>
          rbind (lift (setitem acc id res)) (fun acc' =>
          execute_tasks self rest acc')))
      end)
  end.

(** [plan_and_execute], lines 84-93 *)
Definition plan_and_execute `{Jsonschema} `{UserAgents}
  (self : t) (goal : string) : run results :=
  execute_tasks self (decompose_goal self goal) [].

End PlannerAgent.

(** ** What the claims speak of, in the specification's words *)

Module Spec.

(** The task's [task_type] and [payload] as a reader of the task sees
    them: the entry of the dict, [None] (resp. the empty dict) when the
    task has none. *)
Definition task_type_of (task : value) : value :=
  match task with
  | VDict d => BaseAgent.cfg_get d "task_type" VNone
  | _ => VNone
  end.

Definition payload_of (task : value) : value :=
  match task with
  | VDict d => BaseAgent.cfg_get d "payload" (VDict [])
  | _ => VDict []
  end.

(** "The agent's capability set contains the task's task_type." *)
Definition lists_task_type (a : BaseAgent.t) (task : value) : bool :=
  contains (BaseAgent.capabilities a) (task_type_of task).

(** The capability filter the code applies: the task is a dict, its
    [task_type] is truthy, and the capability list holds it. *)
Definition capable (a : BaseAgent.t) (task : value) : bool :=
  isinstance_dict task && truthy (task_type_of task) && lists_task_type a task.

(** "The agent's input-schema validation accepts the task's payload." *)
Definition accepts `{Jsonschema} (a : BaseAgent.t) (task : value) : bool :=
  BaseAgent.validate_input a (payload_of task).

(** A document the summarizer can read: a dict whose ["text"], when it has
    one, is a string; its text, its highlight and its source entry. *)
Definition doc_ok (d : value) : bool :=
  match d with
  | VDict kv =>
      match dict_lookup "text" kv with
      | None | Some (VStr _) => true
      | Some _ => false
      end
  | _ => false
  end.

Definition text_string (d : value) : string :=
  match d with
  | VDict kv => match dict_lookup "text" kv with Some (VStr s) => s | _ => "" end
  | _ => ""
  end.

Definition source_entry (d : value) : value :=
  match d with
  | VDict kv =>
      VDict [("id", BaseAgent.cfg_get kv "id" VNone);
             ("title", BaseAgent.cfg_get kv "title" VNone)]
  | _ => VNone
  end.

(** "The error is recorded in the plan result": the call returns a result
    mapping, and the task's id has an entry in it. *)
Definition recorded_in_result (outcome : exc PlannerAgent.results) (id : value) : bool :=
  match outcome with
  | Ok res => match PlannerAgent.lookup id res with Some _ => true | None => false end
  | Raise _ => false
  end.

(** An entry of the plan result the specification describes: a status, a
    result or an error, and the number of attempts. *)
Definition has_key (v : value) (k : string) : bool :=
  match v with
  | VDict d => match dict_lookup k d with Some _ => true | None => false end
  | _ => false
  end.

Definition is_plan_entry (v : value) : bool :=
  has_key v "status" && (has_key v "result" || has_key v "error")
  && has_key v "attempts".

End Spec.

(** ** Concrete agents and runs, for the worked examples *)

Module Examples.

(** A deployment with no foreign agent reachable. *)
Definition offline : UserAgents :=
  {| World := unit;
     foreign_execute_task := fun _ _ w => (Raise (AgentError "unreachable"), w) |}.

(** Foreign agents that answer with the task's payload and count the calls
    they served: the answer does not depend on the count. *)
Definition echoing : UserAgents :=
  {| World := nat;
     foreign_execute_task := fun _ task n => (Ok (Spec.payload_of task), S n) |}.

(** The value of a construction that succeeded. *)
Definition built {A} (c : exc A) : match c with Ok _ => A | Raise _ => unit end :=
  match c with
  | Ok a => a
  | Raise _ => tt
  end.

(** Keyword arguments as the tests pass them: a name, an id, a config and
    [show_logger=False]; every other argument is omitted, so at its default
    ([rag_enabled=False], ...). *)
Definition kwargs (name : string) (id : Z) (cfg : dict) : BaseAgent.init_args :=
  let d := BaseAgent.defaults name "" "test" id in
  {| BaseAgent.arg_agent_name := BaseAgent.arg_agent_name d;
     BaseAgent.arg_agent_description := BaseAgent.arg_agent_description d;
     BaseAgent.arg_agent_tools := BaseAgent.arg_agent_tools d;
     BaseAgent.arg_llm := BaseAgent.arg_llm d;
     BaseAgent.arg_agent_id := BaseAgent.arg_agent_id d;
     BaseAgent.arg_agent_config_dict := Some cfg;
     BaseAgent.arg_agent_memory := BaseAgent.arg_agent_memory d;
     BaseAgent.arg_agent_persona := BaseAgent.arg_agent_persona d;
     BaseAgent.arg_agent_prompt := BaseAgent.arg_agent_prompt d;
     BaseAgent.arg_verbose := BaseAgent.arg_verbose d;
     BaseAgent.arg_agent_role := BaseAgent.arg_agent_role d;
     BaseAgent.arg_rag_enabled := BaseAgent.arg_rag_enabled d;
     BaseAgent.arg_vector_store := BaseAgent.arg_vector_store d;
     BaseAgent.arg_interactions := BaseAgent.arg_interactions d;
     BaseAgent.arg_show_logger := false |}.

(** The summarizer config of [tests/test_agents_validation.py]. *)
Definition tested_cfg : dict :=
  [("capabilities", VList [VStr "summarize_text"]);
   ("input_schema",
    VDict [("type", VStr "object");
           ("required", VList [VStr "documents"]);
           ("properties", VDict [("documents", VDict [("type", VStr "array")])])]);
   ("output_schema",
    VDict [("type", VStr "object");
           ("required", VList [VStr "summary"]);
           ("properties", VDict [("summary", VDict [("type", VStr "string")])])])].

Definition tested_summarizer : BaseAgent.t :=
  Eval cbv in built (SummarizerAgent.__init__ (kwargs "Summ" 1 tested_cfg)).

(** A summarizer that declares its capability and no schema. *)
Definition plain_cfg : dict := [("capabilities", VList [VStr "summarize_text"])].

Definition plain_summarizer : BaseAgent.t :=
  Eval cbv in built (SummarizerAgent.__init__ (kwargs "Summ" 1 plain_cfg)).

(** An agent whose capability list holds the empty string. *)
Definition nameless_cfg : dict := [("capabilities", VList [VStr ""])].

Definition nameless_summarizer : BaseAgent.t :=
  Eval cbv in built (SummarizerAgent.__init__ (kwargs "Any" 2 nameless_cfg)).

(** A planner registered as a worker for summaries; it declares the
    planner's output schema, and [PlannerAgent.execute_task] returns a
    string. *)
Definition worker_planner_cfg : dict :=
  [("capabilities", VList [VStr "summarize_text"]);
   ("output_schema",
    VDict [("type", VStr "object"); ("required", VList [VStr "plan"])])].

Definition worker_planner : BaseAgent.t :=
  Eval cbv in built (BaseAgent.__init__ BaseAgent.PlannerAgentClass
                       (kwargs "Sub-planner" 3 worker_planner_cfg)).

(** An agent of a class defined outside the repository. *)
Definition foreign_summarizer : BaseAgent.t :=
  Eval cbv in built (BaseAgent.__init__ (BaseAgent.ForeignClass "MyAgent")
                       (kwargs "HelperBot" 101 plain_cfg)).

(** The planner of the repository's demo, over a given registry. *)
Definition planner_cfg : dict :=
  [("capabilities", VList [VStr "decompose_goal"; VStr "plan_tasks"])].

Definition planner_base : BaseAgent.t :=
  Eval cbv in built (BaseAgent.__init__ BaseAgent.PlannerAgentClass
                       (kwargs "Planner Agent" 1 planner_cfg)).

Definition planner (reg : list BaseAgent.t) : PlannerAgent.t :=
  {| PlannerAgent.base := planner_base; PlannerAgent.registry := reg |}.

(** [make_doc(i)] of the tests, for [i] = 1, 2 *)
Definition doc1 : value :=
  VDict [("id", VStr "d1"); ("title", VStr "Doc 1");
         ("text", VStr "This is the content of document 1.")].

Definition doc2 : value :=
  VDict [("id", VStr "d2"); ("title", VStr "Doc 2");
         ("text", VStr "This is the content of document 2.")].

Definition summarize (docs : list value) : value :=
  VDict [("task_id", VStr "t1"); ("task_type", VStr "summarize_text");
         ("payload", VDict [("documents", VList docs)])].

(** Configs that switch retrieval on, by the nested key and by its alias. *)
Definition rag_nested_cfg : dict := [("rag", VDict [("enabled", VBool true)])].

Definition rag_alias_cfg : dict := [("rag_enabled", VBool true)].

(** The one task [decompose_goal] produces. *)
Definition t1 : value :=
  Eval cbv in hd VNone (PlannerAgent.decompose_goal (planner []) "").

(** A task no summarizer is capable of. *)
Definition translate : value :=
  VDict [("task_id", VStr "t0"); ("task_type", VStr "translate_text");
         ("payload", VDict [])].

(** The state a run starts in: nothing dispatched yet. *)
Definition offline_start : PlannerAgent.state (H := offline) :=
  @PlannerAgent.Build_state offline tt [].

Definition offline_after (tr : list PlannerAgent.event) : PlannerAgent.state (H := offline) :=
  @PlannerAgent.Build_state offline tt tr.

Definition echo_start (calls : nat) : PlannerAgent.state (H := echoing) :=
  @PlannerAgent.Build_state echoing calls [].

End Examples.

(** ** [agents/research_agent.py] *)

(** The builtin [str()] on a value that is not a string (the text Python
    prints for [None], a number, a list, a dict). *)
Class Builtins : Type :=
  { repr : value -> string }.

Module ResearchAgent.

(** [str(v)], as an f-string field [{v}] formats it: a string is its own
    text. *)
Definition str `{Builtins} (v : value) : string :=
  match v with
  | VStr s => s
  | _ => repr v
  end.

(** [f"doc-{i}"] for the index [i] that [enumerate] counts from 0 *)
Definition doc_name (i : nat) : string :=
  ("doc-" ++ NilEmpty.string_of_uint (Nat.to_uint i))%string.

(** The dict built for document [d] at index [i], lines 27-32 *)
Definition normalize (i : nat) (d : value) : exc value :=
  id <- get d "id" (VStr (doc_name i)) ;;
  fallback <- get d "id" (VStr (doc_name i)) ;;
  title <- get d "title" fallback ;;
  text <- get d "text" (VStr "") ;;
  source <- get d "source" VNone ;;
  Ok (VDict [("id", id); ("title", title); ("text", text); ("source", source)]).

(** [for i, d in enumerate(docs): normalized.append(...)], from index [i] *)
Fixpoint normalize_from (i : nat) (docs : list value) : exc (list value) :=
  match docs with
  | [] => Ok []
  | d :: rest =>
      n <- normalize i d ;;
      ns <- normalize_from (S i) rest ;;
      Ok (n :: ns)
  end.

(** [execute_task], lines 16-40 *)
Definition execute_task `{Jsonschema} `{Builtins} (self : BaseAgent.t) (task : value)
  : exc value :=
  payload <- get task "payload" (VDict []) ;;
  if negb (BaseAgent.validate_input self payload)
  then Raise (ValueError "Invalid payload for ResearchAgent")
  else
    mode <- get payload "mode" VNone ;;
    if py_eq mode (VStr "documents") then
      docs <- get payload "documents" (VList []) ;;
      items <- iter docs ;;
      normalized <- normalize_from 0 items ;;
      Ok (VDict [("documents", VList normalized);
                 ("metadata", VDict [("retrieval_mode", VStr "provided")])])
    else
      query <- get payload "query" (VStr "") ;;
      Ok (VDict [("documents",
                  VList [VDict [("id", VStr "sim-1");
                                ("title", VStr ("Result for: " ++ str query)%string);
                                ("text",
                                 VStr ("Simulated content for query '" ++ str query ++ "'")%string);
                                ("source", VStr "simulator")]]);
                 ("metadata", VDict [("query", query)])]).

End ResearchAgent.

(** ** Notions the further properties speak of *)

Module Facts.

(** The events a loop over [tasks] adds when every task is dispatched
    once, to the agent paired with it. *)
Definition dispatches (agents : list BaseAgent.t) (tasks : list value)
  : list PlannerAgent.event :=
  map (fun at_ : BaseAgent.t * value => PlannerAgent.Dispatched (fst at_) (snd at_))
      (combine agents tasks).

(** The task an event was dispatched for. *)
Definition event_task (e : PlannerAgent.event) : value :=
  match e with PlannerAgent.Dispatched _ task => task end.

(** [k in results] *)
Definition has_entry (k : value) (d : PlannerAgent.results) : bool :=
  match PlannerAgent.lookup k d with Some _ => true | None => false end.

(** The exceptions [SummarizerAgent.execute_task] and
    [ResearchAgent.execute_task] can end with. *)
Definition summarizer_error (e : exn) : bool :=
  match e with
  | AttributeError "get" | TypeError => true
  | ValueError "Invalid payload for SummarizerAgent" => true
  | _ => false
  end.

Definition research_error (e : exn) : bool :=
  match e with
  | AttributeError "get" | TypeError => true
  | ValueError "Invalid payload for ResearchAgent" => true
  | _ => false
  end.

(** The summarizer's result on no documents. *)
Definition empty_summary : value :=
  VDict [("summary", VStr ""); ("highlights", VList []); ("sources", VList [])].

(** A document as [ResearchAgent] hands it on: the four keys, in order. *)
Definition normalized_doc (d : value) : bool :=
  match d with
  | VDict [(k1, _); (k2, _); (k3, _); (k4, _)] =>
      String.eqb k1 "id" && String.eqb k2 "title"
      && String.eqb k3 "text" && String.eqb k4 "source"
  | _ => false
  end.

(** The document [ResearchAgent] builds from a dict at index [i]: its
    entries, with the defaults for the missing ones. *)
Definition normal_form (i : nat) (d : value) : value :=
  match d with
  | VDict kv =>
      let id := BaseAgent.cfg_get kv "id" (VStr (ResearchAgent.doc_name i)) in
      VDict [("id", id);
             ("title", BaseAgent.cfg_get kv "title" id);
             ("text", BaseAgent.cfg_get kv "text" (VStr ""));
             ("source", BaseAgent.cfg_get kv "source" VNone)]
  | _ => VNone
  end.

Fixpoint normal_forms (i : nat) (docs : list value) : list value :=
  match docs with
  | [] => []
  | d :: rest => normal_form i d :: normal_forms (S i) rest
  end.

(** The task [ResearchAgent] is given to work on provided documents. *)
Definition provided (docs : list value) : value :=
  VDict [("payload", VDict [("mode", VStr "documents"); ("documents", VList docs)])].

(** A value that is not iterable: [list(v)] and [for x in v] raise. *)
Definition scalar (v : value) : bool :=
  match v with
  | VNone | VBool _ | VInt _ => true
  | _ => false
  end.

(** A builtin [str()] for the worked examples: it is only ever applied to
    strings there. *)
Definition no_repr : Builtins := {| repr := fun _ => "" |}.

(** The research config and the task of
    [test_research_and_summarize_integration]. *)
Definition research_cfg : dict :=
  [("capabilities", VList [VStr "retrieve_documents"]);
   ("input_schema",
    VDict [("type", VStr "object");
           ("required", VList [VStr "mode"]);
           ("properties", VDict [("mode", VDict [("type", VStr "string")]);
                                 ("documents", VDict [("type", VStr "array")])])]);
   ("output_schema",
    VDict [("type", VStr "object");
           ("required", VList [VStr "documents"]);
           ("properties", VDict [("documents", VDict [("type", VStr "array")])])])].

Definition research_agent : BaseAgent.t :=
  Eval cbv in Examples.built
                (BaseAgent.__init__ (BaseAgent.ForeignClass "ResearchAgent")
                   (Examples.kwargs "Res" 2 research_cfg)).

Definition retrieve (docs : list value) : value :=
  VDict [("task_id", VStr "t-docs"); ("task_type", VStr "retrieve_documents");
         ("payload", VDict [("mode", VStr "documents"); ("documents", VList docs)])].

(** A document with a text and nothing else. *)
Definition bare_doc : value := VDict [("text", VStr "Unnamed note.")].

(** A constructor call that gives tools, role, interactions and vector
    store, over a config that names others. *)
Definition contrary_cfg : dict :=
  [("tools", VList [VStr "web_search"]); ("role", VStr "assistant");
   ("interactions", VStr "nobody"); ("vector_store", VStr "pinecone")].

Definition explicit_kwargs : BaseAgent.init_args :=
  {| BaseAgent.arg_agent_name := "HelperBot";
     BaseAgent.arg_agent_description := "A friendly assistant";
     BaseAgent.arg_agent_tools := Some [VStr "calculator"; VStr "notepad"];
     BaseAgent.arg_llm := "Google Gemini";
     BaseAgent.arg_agent_id := 101;
     BaseAgent.arg_agent_config_dict := Some contrary_cfg;
     BaseAgent.arg_agent_memory := VNone;
     BaseAgent.arg_agent_persona := None;
     BaseAgent.arg_agent_prompt := None;
     BaseAgent.arg_verbose := true;
     BaseAgent.arg_agent_role := Some "math tutor";
     BaseAgent.arg_rag_enabled := VBool true;
     BaseAgent.arg_vector_store := Some "FAISS";
     BaseAgent.arg_interactions := Some "ResearchBot, SecureBot";
     BaseAgent.arg_show_logger := false |}.

Definition explicit_agent : BaseAgent.t :=
  Eval cbv in Examples.built
                (BaseAgent.__init__ (BaseAgent.ForeignClass "MyAgent") explicit_kwargs).

(** An agent constructed with no config at all. *)
Definition bare_agent : BaseAgent.t :=
  Eval cbv in Examples.built
                (SummarizerAgent.__init__ (BaseAgent.defaults "Summ" "" "test" 1)).

(** Configs with a capability written as one string, with a [null]
    capability list, and with a ["rag"] entry that is a string. *)
Definition string_caps_cfg : dict := [("capabilities", VStr "summarize_text")].

Definition string_caps_agent : BaseAgent.t :=
  Eval cbv in Examples.built (SummarizerAgent.__init__ (Examples.kwargs "S" 1 string_caps_cfg)).

Definition null_caps_cfg : dict := [("capabilities", VNone)].

Definition string_rag_cfg : dict := [("rag", VStr "pinecone")].

(** [explicit_kwargs] over the config with the string ["rag"]. *)
Definition explicit_over_string_rag : BaseAgent.init_args :=
  {| BaseAgent.arg_agent_name := "HelperBot";
     BaseAgent.arg_agent_description := "A friendly assistant";
     BaseAgent.arg_agent_tools := Some [VStr "calculator"; VStr "notepad"];
     BaseAgent.arg_llm := "Google Gemini";
     BaseAgent.arg_agent_id := 101;
     BaseAgent.arg_agent_config_dict := Some string_rag_cfg;
     BaseAgent.arg_agent_memory := VNone;
     BaseAgent.arg_agent_persona := None;
     BaseAgent.arg_agent_prompt := None;
     BaseAgent.arg_verbose := true;
     BaseAgent.arg_agent_role := Some "math tutor";
     BaseAgent.arg_rag_enabled := VBool true;
     BaseAgent.arg_vector_store := Some "FAISS";
     BaseAgent.arg_interactions := Some "ResearchBot, SecureBot";
     BaseAgent.arg_show_logger := false |}.

(** What [ResearchAgent] makes of [bare_doc] and [doc2]. *)
Definition normalized_pair : list value :=
  Eval cbv in normal_forms 0 [bare_doc; Examples.doc2].

(** A query for the simulated retrieval. *)
Definition query_payload : dict := [("mode", VStr "query"); ("query", VStr "rag")].

(** Two tasks under the same id ["t1"], and the trace of running both on
    the plain summarizer. *)
Definition same_id_tasks : list value :=
  [Examples.summarize [Examples.doc1]; Examples.t1].

Definition same_id_trace : list PlannerAgent.event :=
  [PlannerAgent.Dispatched Examples.plain_summarizer (Examples.summarize [Examples.doc1]);
   PlannerAgent.Dispatched Examples.plain_summarizer Examples.t1].

(** The planner of the examples, constructed without a registry. *)
Definition lone_planner : PlannerAgent.t :=
  Eval cbv in Examples.built
                (PlannerAgent.__init__ (Examples.kwargs "Planner Agent" 1 Examples.planner_cfg)
                   None).

End Facts.

(** * Properties *)

(** ** [BaseAgent.can_handle] *)

Section CanHandle.

Variable self : BaseAgent.t.

Lemma can_handle_not_dict (task : value) :
  isinstance_dict task = false -> BaseAgent.can_handle self task = Ok false.
Proof.
  unfold BaseAgent.can_handle. intros ->. reflexivity.
Qed.

Lemma can_handle_dict (d : dict) :
  BaseAgent.can_handle self (VDict d) =
  Ok (truthy (BaseAgent.cfg_get d "task_type" VNone)
      && contains (BaseAgent.capabilities self) (BaseAgent.cfg_get d "task_type" VNone)).
Proof.
  unfold BaseAgent.can_handle, BaseAgent.cfg_get, get. simpl.
  destruct (dict_lookup "task_type" d); reflexivity.
Qed.

Lemma can_handle_capable (task : value) :
  BaseAgent.can_handle self task = Ok (Spec.capable self task).
Proof.
  destruct task; try (apply can_handle_not_dict; reflexivity).
  rewrite can_handle_dict. reflexivity.
Qed.

(** C10.  [can_handle] returns a boolean for every argument and never
    raises.  The boolean is [False] exactly when the argument is not a
    dict, or it is a dict whose ["task_type"] entry is missing or falsy, or
    the entry is not in the agent's capability list; it is [True]
    otherwise. *)
Theorem can_handle_total (task : value) :
  exists b : bool,
    BaseAgent.can_handle self task = Ok b
    /\ (b = false <->
        (isinstance_dict task = false
         \/ (exists d, task = VDict d
                       /\ forall tt, dict_lookup "task_type" d = Some tt -> truthy tt = false)
         \/ (exists d tt, task = VDict d
                          /\ dict_lookup "task_type" d = Some tt
                          /\ contains (BaseAgent.capabilities self) tt = false)))
    /\ (b = true <->
        (exists d tt, task = VDict d
                      /\ dict_lookup "task_type" d = Some tt
                      /\ truthy tt = true
                      /\ contains (BaseAgent.capabilities self) tt = true)).
Proof.
  destruct task as [ | b0 | z | s | l | d ];
    try (exists false; split; [ apply can_handle_not_dict; reflexivity | ];
         split; split; try discriminate; auto;
         intros (d & tt & E & _); discriminate E).
  rewrite can_handle_dict. unfold BaseAgent.cfg_get.
  destruct (dict_lookup "task_type" d) as [tt | ] eqn:L.
  - exists (truthy tt && contains (BaseAgent.capabilities self) tt).
    split; [ reflexivity | ]. split; split.
    + intros E. apply andb_false_iff in E. destruct E as [E | E].
      * right. left. exists d. split; [ reflexivity | ].
        intros tt' L'. rewrite L in L'. injection L' as <-. exact E.
      * right. right. exists d, tt. auto.
    + intros [E | [(d' & E & F) | (d' & tt' & E & L' & F)]].
      * discriminate E.
      * injection E as <-. rewrite (F tt L). reflexivity.
      * injection E as <-. rewrite L in L'. injection L' as <-.
        rewrite F. apply andb_false_r.
    + intros E. apply andb_true_iff in E. destruct E as [E F].
      exists d, tt. auto.
    + intros (d' & tt' & E & L' & T & F). injection E as <-.
      rewrite L in L'. injection L' as <-. rewrite T, F. reflexivity.
  - exists false. split; [ reflexivity | ]. split; split; try discriminate; auto.
    + intros _. right. left. exists d. split; [ reflexivity | ].
      intros tt L'. rewrite L in L'. discriminate L'.
    + intros (d' & tt & E & L' & _). injection E as <-.
      rewrite L in L'. discriminate L'.
Qed.

End CanHandle.

(** ** [BaseAgent.validate_input] *)

Section ValidateInput.

Context `{Jsonschema}.

Lemma validate_input_eq (self : BaseAgent.t) (payload : value) :
  BaseAgent.validate_input self payload =
  negb (truthy (BaseAgent.input_schema self))
  || jsonschema_validate payload (BaseAgent.input_schema self).
Proof.
  unfold BaseAgent.validate_input.
  destruct (truthy (BaseAgent.input_schema self)); simpl; [ | reflexivity ].
  destruct (jsonschema_validate payload (BaseAgent.input_schema self)); reflexivity.
Qed.

(** C4.  An agent whose [input_schema] is absent ([None]) or empty, that
    is falsy, accepts every payload: [validate_input] returns [True]
    whatever the validator would say. *)
Theorem validate_input_without_schema (self : BaseAgent.t) (payload : value) :
  truthy (BaseAgent.input_schema self) = false ->
  BaseAgent.validate_input self payload = true.
Proof.
  intros E. rewrite validate_input_eq, E. reflexivity.
Qed.

End ValidateInput.

(** The constructor reads the schema off the config, [None] when the
    config has no such key. *)
Lemma init_input_schema (c : BaseAgent.agent_class) (a : BaseAgent.init_args)
  (self : BaseAgent.t) :
  BaseAgent.__init__ c a = Ok self ->
  BaseAgent.input_schema self =
  BaseAgent.cfg_get
    (match BaseAgent.arg_agent_config_dict a with Some d => d | None => [] end)
    "input_schema" VNone.
Proof.
  unfold BaseAgent.__init__.
  destruct (match BaseAgent.arg_agent_tools a with Some _ => _ | None => _ end);
    simpl; [ | discriminate ].
  destruct (if truthy (BaseAgent.arg_rag_enabled a) then _ else _);
    simpl; [ | discriminate ].
  destruct (match BaseAgent.arg_vector_store a with Some _ => _ | None => _ end);
    simpl; [ | discriminate ].
  destruct (BaseAgent.to_list _); simpl; [ | discriminate ].
  intros E. injection E as <-. reflexivity.
Qed.

(** C4 at work.  An agent built from a config with no ["input_schema"] accepts a payload
    that is not even a dict, and so does one whose schema is [{}]. *)
Lemma validate_input_without_schema_witness :
  exists self,
    SummarizerAgent.__init__ (Examples.kwargs "Summ" 1 Examples.plain_cfg) = Ok self
    /\ BaseAgent.input_schema self = VNone
    /\ BaseAgent.validate_input (H := Draft7.jsonschema) self (VInt 7) = true.
Proof.
  exists Examples.plain_summarizer.
  split; [ reflexivity | ]. split; [ reflexivity | ].
  apply (@validate_input_without_schema Draft7.jsonschema Examples.plain_summarizer (VInt 7)).
  reflexivity.
Defined.

(** ** [BaseAgent.__init__]: retrieval switched on by the config *)

Section RagEnabled.

Variables (c : BaseAgent.agent_class) (a : BaseAgent.init_args) (self : BaseAgent.t).

Hypothesis constructed : BaseAgent.__init__ c a = Ok self.

Let config : dict :=
  match BaseAgent.arg_agent_config_dict a with Some d => d | None => [] end.

(** Lines 113-116: a truthy argument sets the flag; otherwise
    [config.get("rag", {}).get("enabled", config.get("rag_enabled", False))]
    does. *)
Lemma init_rag_enabled :
  if truthy (BaseAgent.arg_rag_enabled a)
  then BaseAgent.rag_enabled self = true
  else exists v,
      get (BaseAgent.cfg_get config "rag" (VDict [])) "enabled"
          (BaseAgent.cfg_get config "rag_enabled" (VBool false)) = Ok v
      /\ BaseAgent.rag_enabled self = truthy v.
Proof.
  revert constructed. unfold BaseAgent.__init__. fold config.
  destruct (match BaseAgent.arg_agent_tools a with Some _ => _ | None => _ end);
    simpl; [ | discriminate ].
  destruct (truthy (BaseAgent.arg_rag_enabled a)); simpl.
  - destruct (match BaseAgent.arg_vector_store a with Some _ => _ | None => _ end);
      simpl; [ | discriminate ].
    destruct (BaseAgent.to_list _); simpl; [ | discriminate ].
    intros E. injection E as <-. reflexivity.
  - destruct (get (BaseAgent.cfg_get config "rag" (VDict [])) "enabled"
                  (BaseAgent.cfg_get config "rag_enabled" (VBool false))) as [v | e];
      simpl; [ | discriminate ].
    destruct (match BaseAgent.arg_vector_store a with Some _ => _ | None => _ end);
      simpl; [ | discriminate ].
    destruct (BaseAgent.to_list _); simpl; [ | discriminate ].
    intros E. injection E as <-. exists v. split; reflexivity.
Qed.

End RagEnabled.

(** C8.  There are constructions in which the config overrides the
    constructor argument: with [rag_enabled=False] (the default, so also when
    omitted) and a config holding [rag.enabled = true], or holding the alias
    [rag_enabled = true], the agent is built with [rag_enabled] [True].  In
    general a truthy argument always gives [True], and a falsy one leaves the
    decision to the config: to [rag.enabled] when the config has it, to the
    alias [rag_enabled] when it has no [rag] entry (or one without
    [enabled]). *)
Theorem rag_enabled_config_overrides_argument :
  (exists self,
      BaseAgent.arg_rag_enabled (Examples.kwargs "A" 1 Examples.rag_nested_cfg) = VBool false
      /\ SummarizerAgent.__init__ (Examples.kwargs "A" 1 Examples.rag_nested_cfg) = Ok self
      /\ BaseAgent.rag_enabled self = true)
  /\ (exists self,
      BaseAgent.arg_rag_enabled (Examples.kwargs "A" 1 Examples.rag_alias_cfg) = VBool false
      /\ SummarizerAgent.__init__ (Examples.kwargs "A" 1 Examples.rag_alias_cfg) = Ok self
      /\ BaseAgent.rag_enabled self = true)
  /\ (forall c a self,
      BaseAgent.__init__ c a = Ok self ->
      truthy (BaseAgent.arg_rag_enabled a) = true ->
      BaseAgent.rag_enabled self = true)
  /\ (forall c a self,
      BaseAgent.__init__ c a = Ok self ->
      truthy (BaseAgent.arg_rag_enabled a) = false ->
      let config : dict :=
        match BaseAgent.arg_agent_config_dict a with Some d => d | None => [] end in
      (forall r v, dict_lookup "rag" config = Some (VDict r) ->
                   dict_lookup "enabled" r = Some v ->
                   BaseAgent.rag_enabled self = truthy v)
      /\ (forall r v, dict_lookup "rag" config = Some (VDict r) ->
                      dict_lookup "enabled" r = None ->
                      dict_lookup "rag_enabled" config = Some v ->
                      BaseAgent.rag_enabled self = truthy v)
      /\ (forall v, dict_lookup "rag" config = None ->
                    dict_lookup "rag_enabled" config = Some v ->
                    BaseAgent.rag_enabled self = truthy v)
      /\ (dict_lookup "rag" config = None ->
          dict_lookup "rag_enabled" config = None ->
          BaseAgent.rag_enabled self = false)).
Proof.
  split; [ | split; [ | split ] ].
  - eexists. split; [ reflexivity | ]. split; reflexivity.
  - eexists. split; [ reflexivity | ]. split; reflexivity.
  - intros c a self B T. pose proof (init_rag_enabled c a self B) as R.
    rewrite T in R. exact R.
  - intros c a self B T config. pose proof (init_rag_enabled c a self B) as R.
    rewrite T in R. fold config in R. destruct R as (v & G & R). rewrite R. clear R B.
    unfold BaseAgent.cfg_get, get in G.
    split; [ | split; [ | split ] ].
    + intros r w Lr Le. rewrite Lr, Le in G. injection G as <-. reflexivity.
    + intros r w Lr Le La. rewrite Lr, Le, La in G. injection G as <-. reflexivity.
    + intros w Lr La. rewrite Lr, La in G. simpl in G. injection G as <-. reflexivity.
    + intros Lr La. rewrite Lr, La in G. simpl in G. injection G as <-. reflexivity.
Qed.

(** ** [PlannerAgent.decompose_goal] *)

(** C6.  Whatever the goal (and the planner), [decompose_goal] returns a
    list of exactly one task, whose [task_id] is ["t1"], [task_type]
    ["summarize_text"], [dependencies] the empty list and [priority] 50. *)
Theorem decompose_goal_hardcoded :
  exists task,
    (forall self goal, PlannerAgent.decompose_goal self goal = [task])
    /\ getitem task "task_id" = Ok (VStr "t1")
    /\ getitem task "task_type" = Ok (VStr "summarize_text")
    /\ getitem task "dependencies" = Ok (VList [])
    /\ getitem task "priority" = Ok (VInt 50).
Proof.
  eexists. split.
  - intros self goal. unfold PlannerAgent.decompose_goal. reflexivity.
  - repeat split.
Qed.

(** ** [PlannerAgent.select_agent_for_task] *)

Section SelectAgent.

Context `{Jsonschema}.

Variable task : value.

Lemma capability_filter (reg : list BaseAgent.t) :
  filterM (fun a => BaseAgent.can_handle a task) reg
  = Ok (filter (fun a => Spec.capable a task) reg).
Proof.
  induction reg as [ | a reg IH ]; simpl; [ reflexivity | ].
  rewrite can_handle_capable, IH. simpl.
  destruct (Spec.capable a task); reflexivity.
Qed.

Lemma capable_is_dict (a : BaseAgent.t) :
  Spec.capable a task = true -> get task "payload" (VDict []) = Ok (Spec.payload_of task).
Proof.
  unfold Spec.capable. destruct task; simpl; try discriminate.
  intros _. unfold BaseAgent.cfg_get.
  destruct (dict_lookup "payload" d); reflexivity.
Qed.

Lemma filter_head_capable (reg : list BaseAgent.t) (a : BaseAgent.t) (rest : list BaseAgent.t) :
  filter (fun x => Spec.capable x task) reg = a :: rest -> Spec.capable a task = true.
Proof.
  intros E.
  assert (I : In a (filter (fun x => Spec.capable x task) reg))
    by (rewrite E; left; reflexivity).
  apply filter_In in I. apply I.
Qed.

(** The method as one expression: two filters and the head. *)
Lemma select_agent_for_task_eq (self : PlannerAgent.t) :
  PlannerAgent.select_agent_for_task self task
  = Ok (hd_error (filter (fun a => Spec.accepts a task)
                    (filter (fun a => Spec.capable a task) (PlannerAgent.registry self)))).
Proof.
  unfold PlannerAgent.select_agent_for_task.
  rewrite capability_filter. simpl.
  destruct (filter (fun a => Spec.capable a task) (PlannerAgent.registry self))
    as [ | a rest ] eqn:F; [ reflexivity | ].
  rewrite (capable_is_dict a (filter_head_capable _ _ _ F)). simpl.
  fold (Spec.accepts a task).
  change (fun a0 : BaseAgent.t => BaseAgent.validate_input a0 (Spec.payload_of task))
    with (fun a0 : BaseAgent.t => Spec.accepts a0 task).
  destruct (Spec.accepts a task); simpl; [ reflexivity | ].
  destruct (filter (fun a0 => Spec.accepts a0 task) rest); reflexivity.
Qed.

(** The head of a filtered list is the first element that passes. *)
Lemma hd_filter_first {A} (p : A -> bool) (l : list A) (a : A) :
  hd_error (filter p l) = Some a ->
  exists before after,
    l = before ++ a :: after /\ p a = true /\ forall b, In b before -> p b = false.
Proof.
  induction l as [ | x l IH ]; simpl; [ discriminate | ].
  destruct (p x) eqn:P; simpl.
  - intros E. injection E as ->. exists [], l. split; [ reflexivity | ].
    split; [ exact P | ]. intros b [].
  - intros E. destruct (IH E) as (before & after & -> & Pa & Pb).
    exists (x :: before), after. split; [ reflexivity | ].
    split; [ exact Pa | ]. intros b [ <- | I ]; auto.
Qed.

Lemma hd_filter_none {A} (p : A -> bool) (l : list A) :
  hd_error (filter p l) = None <-> forall a, In a l -> p a = false.
Proof.
  induction l as [ | x l IH ]; simpl.
  - split; [ intros _ a [] | reflexivity ].
  - destruct (p x) eqn:P; simpl.
    + split; [ discriminate | ]. intros F. rewrite (F x) in P; [ discriminate | auto ].
    + rewrite IH. split.
      * intros F a [ <- | I ]; auto.
      * intros F a I. apply F. auto.
Qed.

Lemma filter_filter {A} (p q : A -> bool) (l : list A) :
  filter q (filter p l) = filter (fun a => p a && q a) l.
Proof.
  induction l as [ | x l IH ]; simpl; [ reflexivity | ].
  destruct (p x); simpl; [ | exact IH ].
  destruct (q x); rewrite IH; reflexivity.
Qed.

Lemma select_none_iff (self : PlannerAgent.t) :
  PlannerAgent.select_agent_for_task self task = Ok None <->
  forall a, In a (PlannerAgent.registry self) ->
            Spec.capable a task && Spec.accepts a task = false.
Proof.
  rewrite select_agent_for_task_eq, filter_filter. split.
  - intros E. injection E as E. apply hd_filter_none. exact E.
  - intros F. f_equal. apply hd_filter_none. exact F.
Qed.

Lemma select_some_first (self : PlannerAgent.t) (a : BaseAgent.t) :
  PlannerAgent.select_agent_for_task self task = Ok (Some a) ->
  exists before after,
    PlannerAgent.registry self = before ++ a :: after
    /\ Spec.capable a task = true
    /\ Spec.accepts a task = true
    /\ forall b, In b before -> Spec.capable b task && Spec.accepts b task = false.
Proof.
  rewrite select_agent_for_task_eq, filter_filter.
  intros E. injection E as E.
  destruct (hd_filter_first _ _ _ E) as (before & after & R & P & B).
  apply andb_true_iff in P. destruct P as [P Q].
  exists before, after. auto.
Qed.

(** C1 (as amended).  For every task and registry, [select_agent_for_task]
    keeps the agents that [can_handle] the task (the task is a dict with a
    truthy [task_type] that the agent's capability list holds), then those
    whose input validation accepts the task's payload (every payload, for an
    agent with no schema), and returns the first one left, in registry
    order; it returns [None] exactly when no agent passes both filters; it
    never raises. *)
Theorem select_agent_first_valid (self : PlannerAgent.t) :
  PlannerAgent.select_agent_for_task self task
  = Ok (hd_error (filter (fun a => Spec.accepts a task)
                    (filter (fun a => Spec.capable a task) (PlannerAgent.registry self))))
  /\ (PlannerAgent.select_agent_for_task self task = Ok None <->
      forall a, In a (PlannerAgent.registry self) ->
                Spec.capable a task && Spec.accepts a task = false)
  /\ (forall a, PlannerAgent.select_agent_for_task self task = Ok (Some a) ->
      exists before after,
        PlannerAgent.registry self = before ++ a :: after
        /\ Spec.capable a task = true
        /\ Spec.accepts a task = true
        /\ forall b, In b before -> Spec.capable b task && Spec.accepts b task = false)
  /\ (forall a, truthy (BaseAgent.input_schema a) = false -> Spec.accepts a task = true).
Proof.
  split; [ apply select_agent_for_task_eq | ].
  split; [ apply select_none_iff | ].
  split; [ apply select_some_first | ].
  intros a E. unfold Spec.accepts. rewrite validate_input_eq, E. reflexivity.
Qed.

End SelectAgent.

(** C1, the claim as first stated.  It filters on "the capability list holds the
    task's task_type" alone.  An agent that lists the empty string, asked
    for a task whose [task_type] is the empty string, passes that filter and
    the validation (it has no schema), and is not selected: [can_handle]
    wants a truthy [task_type]. *)
Lemma select_agent_skips_falsy_task_type :
  Spec.lists_task_type Examples.nameless_summarizer (VDict [("task_type", VStr "")]) = true
  /\ Spec.accepts (H := Draft7.jsonschema) Examples.nameless_summarizer
       (VDict [("task_type", VStr "")]) = true
  /\ hd_error
       (filter (fun a => Spec.accepts (H := Draft7.jsonschema) a (VDict [("task_type", VStr "")]))
          (filter (fun a => Spec.lists_task_type a (VDict [("task_type", VStr "")]))
             (PlannerAgent.registry (Examples.planner [Examples.nameless_summarizer]))))
     = Some Examples.nameless_summarizer
  /\ PlannerAgent.select_agent_for_task (H := Draft7.jsonschema)
       (Examples.planner [Examples.nameless_summarizer])
       (VDict [("task_type", VStr "")]) = Ok None.
Proof.
  repeat split.
Qed.

(** ** [SummarizerAgent.execute_task] *)

Section Strings.

Lemma length_append (s t : string) :
  String.length (s ++ t) = String.length s + String.length t.
Proof.
  induction s as [ | c s IH ]; simpl; [ reflexivity | ].
  rewrite IH. reflexivity.
Qed.

Lemma length_substring_le (n : nat) (s : string) :
  String.length (substring 0 n s) <= n.
Proof.
  revert s. induction n as [ | n IH ]; intros [ | c s ]; simpl; try lia.
  specialize (IH s). lia.
Qed.

Lemma length_truncate (combined : string) :
  String.length (SummarizerAgent.truncate combined) <= 803.
Proof.
  unfold SummarizerAgent.truncate.
  destruct (Nat.ltb_spec 800 (String.length combined)) as [L | L].
  - rewrite length_append.
    pose proof (length_substring_le 800 combined) as B.
    change (String.length "...") with 3. lia.
  - lia.
Qed.

Lemma join_strings (sep : string) (l : list string) :
  join sep (map VStr l) = Ok (String.concat sep l).
Proof.
  induction l as [ | s l IH ]; [ reflexivity | ].
  destruct l as [ | t l ]; [ reflexivity | ].
  change (join sep (map VStr (s :: t :: l)))
    with (u <- join sep (map VStr (t :: l)) ;; Ok (s ++ sep ++ u)%string).
  rewrite IH. reflexivity.
Qed.

End Strings.

Lemma mapM_total {A B} (f : A -> exc B) (g : A -> B) (l : list A) :
  (forall x, In x l -> f x = Ok (g x)) -> mapM f l = Ok (map g l).
Proof.
  induction l as [ | x l IH ]; intros F; simpl; [ reflexivity | ].
  rewrite (F x (or_introl eq_refl)), IH; [ reflexivity | ].
  intros y I. apply F. right. exact I.
Qed.

Section Summarizer.

Context `{Jsonschema}.

Lemma text_of_doc (d : value) :
  Spec.doc_ok d = true -> SummarizerAgent.text_of d = Ok (VStr (Spec.text_string d)).
Proof.
  unfold Spec.doc_ok, Spec.text_string, SummarizerAgent.text_of, get.
  destruct d as [ | | | | | kv ]; try discriminate.
  destruct (dict_lookup "text" kv) as [ [ | | | s | | ] | ]; try discriminate; reflexivity.
Qed.

Lemma highlight_of_doc (d : value) :
  Spec.doc_ok d = true ->
  SummarizerAgent.highlight_of d = Ok (VStr (substring 0 200 (Spec.text_string d))).
Proof.
  intros D. unfold SummarizerAgent.highlight_of. rewrite (text_of_doc d D). reflexivity.
Qed.

Lemma source_of_doc (d : value) :
  Spec.doc_ok d = true -> SummarizerAgent.source_of d = Ok (Spec.source_entry d).
Proof.
  unfold Spec.doc_ok, Spec.source_entry, SummarizerAgent.source_of, get, BaseAgent.cfg_get.
  destruct d as [ | | | | | kv ]; try discriminate. intros _.
  destruct (dict_lookup "id" kv), (dict_lookup "title" kv); reflexivity.
Qed.

Lemma firstn_3_length {A} (l : list A) : List.length (firstn 3 l) <= 3.
Proof.
  rewrite length_firstn. lia.
Qed.

Lemma In_firstn {A} (n : nat) (l : list A) (x : A) : In x (firstn n l) -> In x l.
Proof.
  intros I. rewrite <- (firstn_skipn n l). apply in_or_app. left. exact I.
Qed.

(** C9 (as amended).  For every task whose payload passes the input
    validation and is a dict whose ["documents"] (the empty list when
    absent) is a list of dicts, each with a string ["text"] or none,
    [execute_task] returns a dict with exactly the keys [summary],
    [highlights] and [sources]: the summary is the texts joined by blank
    lines, cut to its first 800 characters followed by ["..."] when it is
    longer than 800 (so never longer than 803); the highlights are the
    first 200 characters of the first three texts (at most 3 entries of at
    most 200 characters); the sources are one [{id, title}] per document. *)
Theorem summarizer_execute_task
  (self : BaseAgent.t) (task payload : value) (docs : list value) :
  get task "payload" (VDict []) = Ok payload ->
  BaseAgent.validate_input self payload = true ->
  get payload "documents" (VList []) = Ok (VList docs) ->
  forallb Spec.doc_ok docs = true ->
  exists (summary : string) (highlights : list string),
    SummarizerAgent.execute_task self task
    = Ok (VDict [("summary", VStr summary);
                 ("highlights", VList (map VStr highlights));
                 ("sources", VList (map Spec.source_entry docs))])
    /\ (let combined :=
          String.concat SummarizerAgent.blank_line (map Spec.text_string docs) in
        summary = if Nat.ltb 800 (String.length combined)
                  then (substring 0 800 combined ++ "...")%string
                  else combined)
    /\ String.length summary <= 803
    /\ highlights = firstn 3 (map (fun d => substring 0 200 (Spec.text_string d)) docs)
    /\ List.length highlights <= 3
    /\ Forall (fun h => String.length h <= 200) highlights.
Proof.
  intros P V D W. rewrite forallb_forall in W.
  exists (SummarizerAgent.truncate
            (String.concat SummarizerAgent.blank_line (map Spec.text_string docs))),
         (firstn 3 (map (fun d => substring 0 200 (Spec.text_string d)) docs)).
  split; [ | split; [ reflexivity | split; [ apply length_truncate | ] ] ].
  - unfold SummarizerAgent.execute_task.
    rewrite P. cbv beta iota delta [bind]. rewrite V. cbv beta iota delta [negb].
    rewrite D. cbv beta iota delta [bind iter].
    rewrite (mapM_total _ (fun d => VStr (Spec.text_string d)) docs)
      by (intros d I; apply text_of_doc, W, I).
    cbv beta iota delta [bind].
    rewrite <- (map_map Spec.text_string VStr), join_strings.
    rewrite (mapM_total _ (fun d => VStr (substring 0 200 (Spec.text_string d))) docs)
      by (intros d I; apply highlight_of_doc, W, I).
    rewrite (mapM_total _ Spec.source_entry docs)
      by (intros d I; apply source_of_doc, W, I).
    cbv beta iota delta [bind].
    rewrite <- (map_map (fun d => substring 0 200 (Spec.text_string d)) VStr).
    rewrite firstn_map. reflexivity.
  - split; [ reflexivity | ]. split; [ apply firstn_3_length | ].
    apply Forall_forall. intros h I. apply In_firstn in I.
    apply in_map_iff in I. destruct I as (d & <- & _).
    apply length_substring_le.
Qed.

End Summarizer.

(** C9 at work: the test's summarizer on the test's two documents. *)
Lemma summarizer_execute_task_witness :
  exists (summary : string) (highlights : list string),
    SummarizerAgent.execute_task (H := Draft7.jsonschema) Examples.tested_summarizer
      (Examples.summarize [Examples.doc1; Examples.doc2])
    = Ok (VDict [("summary", VStr summary);
                 ("highlights", VList (map VStr highlights));
                 ("sources", VList (map Spec.source_entry [Examples.doc1; Examples.doc2]))])
    /\ (let combined :=
          String.concat SummarizerAgent.blank_line
            (map Spec.text_string [Examples.doc1; Examples.doc2]) in
        summary = if Nat.ltb 800 (String.length combined)
                  then (substring 0 800 combined ++ "...")%string
                  else combined)
    /\ String.length summary <= 803
    /\ highlights = firstn 3 (map (fun d => substring 0 200 (Spec.text_string d))
                                [Examples.doc1; Examples.doc2])
    /\ List.length highlights <= 3
    /\ Forall (fun h => String.length h <= 200) highlights.
Proof.
  apply (@summarizer_execute_task Draft7.jsonschema Examples.tested_summarizer
           (Examples.summarize [Examples.doc1; Examples.doc2])
           (VDict [("documents", VList [Examples.doc1; Examples.doc2])])
           [Examples.doc1; Examples.doc2]); reflexivity.
Defined.

(** C9, the claim as first stated.  It promises the result for every payload that
    passes validation.  The test's schema only asks that ["documents"] be an
    array, and an agent without a schema accepts anything: a document whose
    text is a number, or that is not a dict, passes validation and makes
    [execute_task] raise. *)
Lemma summarizer_raises_on_validated_payload :
  BaseAgent.validate_input (H := Draft7.jsonschema) Examples.tested_summarizer
    (VDict [("documents", VList [VDict [("text", VInt 5)]])]) = true
  /\ SummarizerAgent.execute_task (H := Draft7.jsonschema) Examples.tested_summarizer
       (Examples.summarize [VDict [("text", VInt 5)]]) = Raise TypeError
  /\ BaseAgent.validate_input (H := Draft7.jsonschema) Examples.plain_summarizer
       (VDict [("documents", VList [VInt 5])]) = true
  /\ SummarizerAgent.execute_task (H := Draft7.jsonschema) Examples.plain_summarizer
       (Examples.summarize [VInt 5]) = Raise (AttributeError "get").
Proof.
  repeat split.
Qed.

(** ** [PlannerAgent.dispatch_task] and [plan_and_execute] *)

Section Planner.

Context `{Jsonschema} `{UserAgents}.

(** Every call of an execution entrypoint adds one event to the trace. *)
Lemma execute_task_trace (agent : BaseAgent.t) (task : value) (s : PlannerAgent.state) :
  PlannerAgent.trace (snd (PlannerAgent.execute_task agent task s))
  = PlannerAgent.trace s ++ [PlannerAgent.Dispatched agent task].
Proof.
  unfold PlannerAgent.execute_task.
  destruct (BaseAgent.cls agent); try reflexivity.
  destruct (foreign_execute_task agent task (PlannerAgent.world s)); reflexivity.
Qed.

Lemma dispatch_task_eq (agent : BaseAgent.t) (task : value) (s : PlannerAgent.state) :
  PlannerAgent.dispatch_task agent task s
  = match PlannerAgent.execute_task agent task s with
    | (Ok result, s') =>
        (if truthy (BaseAgent.output_schema agent)
            && negb (jsonschema_validate result (BaseAgent.output_schema agent))
         then Raise PlannerAgent.output_validation_failed
         else Ok result, s')
    | (Raise e, s') => (Raise e, s')
    end.
Proof.
  unfold PlannerAgent.dispatch_task, PlannerAgent.rbind, PlannerAgent.lift.
  destruct (PlannerAgent.execute_task agent task s) as [[result | e] s']; [ | reflexivity ].
  destruct (truthy (BaseAgent.output_schema agent)); [ | reflexivity ].
  destruct (jsonschema_validate result (BaseAgent.output_schema agent)); reflexivity.
Qed.

Lemma dispatch_task_trace (agent : BaseAgent.t) (task : value) (s : PlannerAgent.state) :
  PlannerAgent.trace (snd (PlannerAgent.dispatch_task agent task s))
  = PlannerAgent.trace s ++ [PlannerAgent.Dispatched agent task].
Proof.
  rewrite dispatch_task_eq. rewrite <- execute_task_trace.
  destruct (PlannerAgent.execute_task agent task s) as [[result | e] s']; reflexivity.
Qed.

(** One turn of the loop, spelled out. *)
Lemma execute_tasks_cons (self : PlannerAgent.t) (task : value) (rest : list value)
  (acc : PlannerAgent.results) (s : PlannerAgent.state) :
  PlannerAgent.execute_tasks self (task :: rest) acc s
  = match PlannerAgent.select_agent_for_task self task with
    | Raise e => (Raise e, s)
    | Ok None =>
        match getitem task "task_id" with
        | Ok id => (Raise (PlannerAgent.no_agent_available id), s)
        | Raise e => (Raise e, s)
        end
    | Ok (Some agent) =>
        match PlannerAgent.dispatch_task agent task s with
        | (Raise e, s') => (Raise e, s')
        | (Ok res, s') =>
            match getitem task "task_id" with
            | Raise e => (Raise e, s')
            | Ok id =>
                match PlannerAgent.setitem acc id res with
                | Raise e => (Raise e, s')
                | Ok acc' => PlannerAgent.execute_tasks self rest acc' s'
                end
            end
        end
    end.
Proof.
  simpl. unfold PlannerAgent.rbind, PlannerAgent.lift.
  destruct (PlannerAgent.select_agent_for_task self task) as [[agent | ] | e];
    [ | destruct (getitem task "task_id"); reflexivity | reflexivity ].
  destruct (PlannerAgent.dispatch_task agent task s) as [[res | e] s']; [ | reflexivity ].
  destruct (getitem task "task_id") as [id | e]; [ | reflexivity ].
  destruct (PlannerAgent.setitem acc id res); reflexivity.
Qed.

(** The loop over a list in two parts. *)
Lemma execute_tasks_app (self : PlannerAgent.t) (pre rest : list value) :
  forall (acc : PlannerAgent.results) (s : PlannerAgent.state),
    PlannerAgent.execute_tasks self (pre ++ rest) acc s
    = match PlannerAgent.execute_tasks self pre acc s with
      | (Ok acc', s') => PlannerAgent.execute_tasks self rest acc' s'
      | (Raise e, s') => (Raise e, s')
      end.
Proof.
  induction pre as [ | task pre IH ]; intros acc s; [ reflexivity | ].
  rewrite <- app_comm_cons, !execute_tasks_cons.
  destruct (PlannerAgent.select_agent_for_task self task) as [[agent | ] | e];
    [ | destruct (getitem task "task_id"); reflexivity | reflexivity ].
  destruct (PlannerAgent.dispatch_task agent task s) as [[res | e] s']; [ | reflexivity ].
  destruct (getitem task "task_id") as [id | e]; [ | reflexivity ].
  destruct (PlannerAgent.setitem acc id res) as [acc' | e]; [ apply IH | reflexivity ].
Qed.

Lemma no_agent_selected (self : PlannerAgent.t) (task : value) :
  (forall a, In a (PlannerAgent.registry self) ->
             Spec.capable a task && Spec.accepts a task = false) ->
  PlannerAgent.select_agent_for_task self task = Ok None.
Proof.
  intros N. apply select_none_iff. exact N.
Qed.

End Planner.

Section PlanAndExecute.

Context `{Jsonschema} `{UserAgents}.

Variable self : PlannerAgent.t.

(** The plan is the loop over the single decomposed task. *)
Lemma plan_and_execute_eq (goal : string) (task : value) (s : PlannerAgent.state) :
  In task (PlannerAgent.decompose_goal self goal) ->
  getitem task "task_id" = Ok (VStr "t1")
  /\ PlannerAgent.plan_and_execute self goal s
     = match PlannerAgent.select_agent_for_task self task with
       | Raise e => (Raise e, s)
       | Ok None => (Raise (PlannerAgent.no_agent_available (VStr "t1")), s)
       | Ok (Some agent) =>
           match PlannerAgent.dispatch_task agent task s with
           | (Raise e, s') => (Raise e, s')
           | (Ok res, s') => (Ok [(VStr "t1", res)], s')
           end
       end.
Proof.
  intros [ <- | [] ]. split; [ reflexivity | ].
  unfold PlannerAgent.plan_and_execute, PlannerAgent.decompose_goal.
  rewrite execute_tasks_cons.
  destruct (PlannerAgent.select_agent_for_task self _) as [[agent | ] | e];
    reflexivity.
Qed.

(** C2 (as amended).  When no registered agent passes both filters for a
    task, the loop raises [RuntimeError("No agent available to handle task
    <id>")] at that task: the state is the one the earlier tasks left, so no
    entrypoint is called for the task (no dispatch, no retry), the tasks
    after it are never looked at, and the results gathered so far are
    dropped with the exception.  For [plan_and_execute] itself, whose only
    task is [t1]: the call raises that error from the starting state and
    returns no plan result. *)
Theorem no_capable_agent_aborts_plan (task : value) :
  (forall a, In a (PlannerAgent.registry self) ->
             Spec.capable a task && Spec.accepts a task = false) ->
  (forall (pre post : list value) (acc acc' : PlannerAgent.results)
          (s0 s1 : PlannerAgent.state) (id : value),
      PlannerAgent.execute_tasks self pre acc s0 = (Ok acc', s1) ->
      getitem task "task_id" = Ok id ->
      PlannerAgent.execute_tasks self (pre ++ task :: post) acc s0
      = (Raise (PlannerAgent.no_agent_available id), s1))
  /\ (forall (goal : string) (s : PlannerAgent.state),
      In task (PlannerAgent.decompose_goal self goal) ->
      PlannerAgent.plan_and_execute self goal s
      = (Raise (PlannerAgent.no_agent_available (VStr "t1")), s)).
Proof.
  intros N. pose proof (no_agent_selected self task N) as S. split.
  - intros pre post acc acc' s0 s1 id P I.
    rewrite execute_tasks_app, P, execute_tasks_cons, S, I. reflexivity.
  - intros goal s I. destruct (plan_and_execute_eq goal task s I) as [_ ->].
    rewrite S. reflexivity.
Qed.

(** C5 (as amended).  For an agent with a truthy output schema, once its
    entrypoint has returned a result, [dispatch_task] validates the result
    against the schema: it returns the result when the validation passes and
    raises [RuntimeError("Output validation failed: ...")] when it does not.
    Nothing catches that error: when the agent was selected for the plan's
    task, [plan_and_execute] ends with the same exception and returns no
    result. *)
Theorem output_mismatch_raises
  (agent : BaseAgent.t) (task result : value) (s s' : PlannerAgent.state) :
  truthy (BaseAgent.output_schema agent) = true ->
  PlannerAgent.execute_task agent task s = (Ok result, s') ->
  PlannerAgent.dispatch_task agent task s
  = (if jsonschema_validate result (BaseAgent.output_schema agent)
     then Ok result
     else Raise PlannerAgent.output_validation_failed, s')
  /\ (jsonschema_validate result (BaseAgent.output_schema agent) = false ->
      forall goal,
        In task (PlannerAgent.decompose_goal self goal) ->
        PlannerAgent.select_agent_for_task self task = Ok (Some agent) ->
        PlannerAgent.plan_and_execute self goal s
        = (Raise PlannerAgent.output_validation_failed, s')).
Proof.
  intros T E.
  assert (D : PlannerAgent.dispatch_task agent task s
              = (if jsonschema_validate result (BaseAgent.output_schema agent)
                 then Ok result
                 else Raise PlannerAgent.output_validation_failed, s')).
  { rewrite dispatch_task_eq, E, T.
    destruct (jsonschema_validate result (BaseAgent.output_schema agent)); reflexivity. }
  split; [ exact D | ].
  intros V goal I S. destruct (plan_and_execute_eq goal task s I) as [_ ->].
  rewrite S, D, V. reflexivity.
Qed.

(** C7 (as amended).  When [plan_and_execute] completes, what it returns
    is a mapping whose only key is the decomposed task's id, and the entry
    under it is the value the selected agent's entrypoint returned, as
    [dispatch_task] passed it on, unchanged: the planner wraps it in no
    status, error or count of attempts, and puts no overall plan status
    beside it. *)
Theorem plan_result_is_raw_results
  (goal : string) (s s' : PlannerAgent.state) (res : PlannerAgent.results) :
  PlannerAgent.plan_and_execute self goal s = (Ok res, s') ->
  exists task agent result,
    PlannerAgent.decompose_goal self goal = [task]
    /\ getitem task "task_id" = Ok (VStr "t1")
    /\ PlannerAgent.select_agent_for_task self task = Ok (Some agent)
    /\ PlannerAgent.dispatch_task agent task s = (Ok result, s')
    /\ fst (PlannerAgent.execute_task agent task s) = Ok result
    /\ res = [(VStr "t1", result)]
    /\ PlannerAgent.lookup (VStr "t1") res = Some result
    /\ (forall k, PlannerAgent.lookup k res <> None -> py_eq k (VStr "t1") = true).
Proof.
  intros P.
  assert (I : In (hd VNone (PlannerAgent.decompose_goal self goal))
                 (PlannerAgent.decompose_goal self goal)) by (left; reflexivity).
  destruct (plan_and_execute_eq goal _ s I) as [Id E]. rewrite E in P. clear E I.
  set (task := hd VNone (PlannerAgent.decompose_goal self goal)) in *.
  destruct (PlannerAgent.select_agent_for_task self task) as [[agent | ] | e] eqn:S;
    try discriminate P.
  destruct (PlannerAgent.dispatch_task agent task s) as [[result | e] s''] eqn:D;
    try discriminate P.
  injection P as <- <-.
  exists task, agent, result.
  split; [ reflexivity | ]. split; [ exact Id | ]. split; [ exact S | ].
  split; [ exact D | ]. split.
  - rewrite dispatch_task_eq in D.
    destruct (PlannerAgent.execute_task agent task s) as [[r | e] s0]; [ | discriminate D ].
    destruct (truthy (BaseAgent.output_schema agent)
              && negb (jsonschema_validate r (BaseAgent.output_schema agent)));
      [ discriminate D | ].
    injection D as -> _. reflexivity.
  - split; [ reflexivity | ]. split; [ reflexivity | ].
    intros k L. simpl in L. destruct (py_eq k (VStr "t1")); [ reflexivity | ].
    exfalso. apply L. reflexivity.
Qed.

End PlanAndExecute.

(** ** Two runs of the same plan *)

Section Determinism.

Context `{Jsonschema} `{UserAgents}.

Variable self : PlannerAgent.t.

(** The registered foreign agents answer by the task alone: the world they
    run in may differ from run to run (and they may change it), their
    result may not. *)
Hypothesis deterministic_agents :
  forall (a : BaseAgent.t) (task : value) (w1 w2 : World),
    In a (PlannerAgent.registry self) ->
    fst (foreign_execute_task a task w1) = fst (foreign_execute_task a task w2).

Lemma selected_is_registered (task : value) (agent : BaseAgent.t) :
  PlannerAgent.select_agent_for_task self task = Ok (Some agent) ->
  In agent (PlannerAgent.registry self).
Proof.
  intros S. destruct (select_some_first task self agent S) as (before & after & -> & _).
  apply in_or_app. right. left. reflexivity.
Qed.

Lemma execute_task_deterministic (agent : BaseAgent.t) (task : value)
  (s1 s2 : PlannerAgent.state) :
  In agent (PlannerAgent.registry self) ->
  fst (PlannerAgent.execute_task agent task s1)
  = fst (PlannerAgent.execute_task agent task s2).
Proof.
  intros I. unfold PlannerAgent.execute_task.
  destruct (BaseAgent.cls agent); try reflexivity.
  pose proof (deterministic_agents agent task (PlannerAgent.world s1)
                (PlannerAgent.world s2) I) as E.
  destruct (foreign_execute_task agent task (PlannerAgent.world s1)),
           (foreign_execute_task agent task (PlannerAgent.world s2)).
  exact E.
Qed.

Lemma dispatch_task_deterministic (agent : BaseAgent.t) (task : value)
  (s1 s2 : PlannerAgent.state) :
  In agent (PlannerAgent.registry self) ->
  PlannerAgent.trace s1 = PlannerAgent.trace s2 ->
  fst (PlannerAgent.dispatch_task agent task s1)
  = fst (PlannerAgent.dispatch_task agent task s2)
  /\ PlannerAgent.trace (snd (PlannerAgent.dispatch_task agent task s1))
     = PlannerAgent.trace (snd (PlannerAgent.dispatch_task agent task s2)).
Proof.
  intros I T. split.
  - rewrite !dispatch_task_eq.
    pose proof (execute_task_deterministic agent task s1 s2 I) as E.
    destruct (PlannerAgent.execute_task agent task s1) as [[r1 | e1] s1'],
             (PlannerAgent.execute_task agent task s2) as [[r2 | e2] s2'];
      simpl in E; try discriminate E; injection E as <-; reflexivity.
  - rewrite !dispatch_task_trace, T. reflexivity.
Qed.

Lemma execute_tasks_deterministic (tasks : list value) :
  forall (acc : PlannerAgent.results) (s1 s2 : PlannerAgent.state),
    PlannerAgent.trace s1 = PlannerAgent.trace s2 ->
    fst (PlannerAgent.execute_tasks self tasks acc s1)
    = fst (PlannerAgent.execute_tasks self tasks acc s2)
    /\ PlannerAgent.trace (snd (PlannerAgent.execute_tasks self tasks acc s1))
       = PlannerAgent.trace (snd (PlannerAgent.execute_tasks self tasks acc s2)).
Proof.
  induction tasks as [ | task rest IH ]; intros acc s1 s2 T.
  - split; [ reflexivity | exact T ].
  - rewrite !execute_tasks_cons.
    destruct (PlannerAgent.select_agent_for_task self task) as [[agent | ] | e] eqn:S.
    + destruct (dispatch_task_deterministic agent task s1 s2
                  (selected_is_registered task agent S) T) as [R T'].
      destruct (PlannerAgent.dispatch_task agent task s1) as [[r1 | e1] s1'],
               (PlannerAgent.dispatch_task agent task s2) as [[r2 | e2] s2'];
        simpl in R, T'; try discriminate R; injection R as <-.
      * destruct (getitem task "task_id") as [id | e]; [ | split; [ reflexivity | exact T' ] ].
        destruct (PlannerAgent.setitem acc id r1) as [acc' | e];
          [ apply IH; exact T' | split; [ reflexivity | exact T' ] ].
      * split; [ reflexivity | exact T' ].
    + destruct (getitem task "task_id"); split; try reflexivity; exact T.
    + split; [ reflexivity | exact T ].
Qed.

(** C3.  Over the same registry, with registered agents whose results
    depend on the task alone, two runs of [plan_and_execute] on the same goal
    return the same thing (equal result mappings, or the same exception) and
    leave the same trace: the same agents were called with the same tasks in
    the same order.  The runs may start in different worlds; they start with
    the same trace (empty, for two fresh runs). *)
Theorem plan_and_execute_deterministic (goal : string) (s1 s2 : PlannerAgent.state) :
  PlannerAgent.trace s1 = PlannerAgent.trace s2 ->
  fst (PlannerAgent.plan_and_execute self goal s1)
  = fst (PlannerAgent.plan_and_execute self goal s2)
  /\ PlannerAgent.trace (snd (PlannerAgent.plan_and_execute self goal s1))
     = PlannerAgent.trace (snd (PlannerAgent.plan_and_execute self goal s2))
  /\ (forall task, In task (PlannerAgent.decompose_goal self goal) ->
        forall agent,
          In (PlannerAgent.Dispatched agent task)
             (PlannerAgent.trace (snd (PlannerAgent.plan_and_execute self goal s1)))
          <-> In (PlannerAgent.Dispatched agent task)
                (PlannerAgent.trace (snd (PlannerAgent.plan_and_execute self goal s2)))).
Proof.
  intros T. unfold PlannerAgent.plan_and_execute.
  destruct (execute_tasks_deterministic (PlannerAgent.decompose_goal self goal) [] s1 s2 T)
    as [R T'].
  split; [ exact R | ]. split; [ exact T' | ].
  intros task _ agent. rewrite T'. reflexivity.
Qed.

End Determinism.

(** ** The planner on concrete registries *)

Section Runs.

#[local] Existing Instance Draft7.jsonschema.

(** C2 at work.  A registry whose only agent lists the empty string: the plan's task
    finds no agent, and neither does a loop over three tasks at its second
    one. *)
Lemma no_capable_agent_aborts_plan_witness :
  (forall (pre post : list value) (acc acc' : PlannerAgent.results)
          (s0 s1 : PlannerAgent.state (H := Examples.offline)) (id : value),
      PlannerAgent.execute_tasks (Examples.planner [Examples.nameless_summarizer])
        pre acc s0 = (Ok acc', s1) ->
      getitem Examples.t1 "task_id" = Ok id ->
      PlannerAgent.execute_tasks (Examples.planner [Examples.nameless_summarizer])
        (pre ++ Examples.t1 :: post) acc s0
      = (Raise (PlannerAgent.no_agent_available id), s1))
  /\ (forall (goal : string) (s : PlannerAgent.state (H := Examples.offline)),
      In Examples.t1
         (PlannerAgent.decompose_goal (Examples.planner [Examples.nameless_summarizer]) goal) ->
      PlannerAgent.plan_and_execute (Examples.planner [Examples.nameless_summarizer]) goal s
      = (Raise (PlannerAgent.no_agent_available (VStr "t1")), s)).
Proof.
  apply (@no_capable_agent_aborts_plan Draft7.jsonschema Examples.offline
           (Examples.planner [Examples.nameless_summarizer]) Examples.t1).
  intros a [ <- | [] ]. reflexivity.
Defined.

(** C2, the claim as first stated.  It has the failure recorded in a plan result and
    the other tasks carried on with.  With an empty registry the call raises
    and returns nothing; and in a loop over two independent tasks, the first
    without an agent, the second (which the summarizer would serve) is never
    dispatched: the trace stays empty. *)
Lemma no_capable_agent_leaves_no_result :
  PlannerAgent.plan_and_execute (H0 := Examples.offline) (Examples.planner [])
    "Summarize recent papers" Examples.offline_start
  = (Raise (RuntimeError [Lit "No agent available to handle task "; Fmt (VStr "t1")]),
     Examples.offline_start)
  /\ Spec.recorded_in_result
       (fst (PlannerAgent.plan_and_execute (H0 := Examples.offline) (Examples.planner [])
               "Summarize recent papers" Examples.offline_start))
       (VStr "t1") = false
  /\ PlannerAgent.select_agent_for_task (Examples.planner [Examples.plain_summarizer])
       Examples.t1 = Ok (Some Examples.plain_summarizer)
  /\ PlannerAgent.execute_tasks (H0 := Examples.offline)
       (Examples.planner [Examples.plain_summarizer])
       [Examples.translate; Examples.t1] [] Examples.offline_start
     = (Raise (RuntimeError [Lit "No agent available to handle task "; Fmt (VStr "t0")]),
        Examples.offline_start).
Proof.
  repeat split.
Qed.

(** C5 at work.  A sub-planner serving summaries under the planner's output schema:
    its entrypoint returns a string, the schema wants an object. *)
Lemma output_mismatch_raises_witness :
  PlannerAgent.dispatch_task (H0 := Examples.offline) Examples.worker_planner Examples.t1
    Examples.offline_start
  = (if jsonschema_validate (VStr "Executing Task..")
          (BaseAgent.output_schema Examples.worker_planner)
     then Ok (VStr "Executing Task..")
     else Raise PlannerAgent.output_validation_failed,
     Examples.offline_after [PlannerAgent.Dispatched Examples.worker_planner Examples.t1])
  /\ (jsonschema_validate (VStr "Executing Task..")
        (BaseAgent.output_schema Examples.worker_planner) = false ->
      forall goal,
        In Examples.t1
           (PlannerAgent.decompose_goal (Examples.planner [Examples.worker_planner]) goal) ->
        PlannerAgent.select_agent_for_task (Examples.planner [Examples.worker_planner])
          Examples.t1 = Ok (Some Examples.worker_planner) ->
        PlannerAgent.plan_and_execute (H0 := Examples.offline)
          (Examples.planner [Examples.worker_planner]) goal Examples.offline_start
        = (Raise PlannerAgent.output_validation_failed,
           Examples.offline_after [PlannerAgent.Dispatched Examples.worker_planner Examples.t1])).
Proof.
  apply (@output_mismatch_raises Draft7.jsonschema Examples.offline
           (Examples.planner [Examples.worker_planner])
           Examples.worker_planner Examples.t1 (VStr "Executing Task..")
           Examples.offline_start); reflexivity.
Defined.

(** C5, the claim as first stated.  It has a mismatch handled as a failed attempt,
    the dispatcher carrying on.  Here the validation fails, [dispatch_task]
    raises, and [plan_and_execute] ends with that exception, no result
    returned. *)
Lemma output_mismatch_ends_the_plan :
  jsonschema_validate (VStr "Executing Task..")
    (BaseAgent.output_schema Examples.worker_planner) = false
  /\ fst (PlannerAgent.execute_task (H0 := Examples.offline) Examples.worker_planner
            Examples.t1 Examples.offline_start)
     = Ok (VStr "Executing Task..")
  /\ fst (PlannerAgent.dispatch_task (H0 := Examples.offline) Examples.worker_planner
            Examples.t1 Examples.offline_start)
     = Raise (RuntimeError [Lit "Output validation failed: "; Cause])
  /\ fst (PlannerAgent.plan_and_execute (H0 := Examples.offline)
            (Examples.planner [Examples.worker_planner])
            "Summarize recent papers" Examples.offline_start)
     = Raise (RuntimeError [Lit "Output validation failed: "; Cause])
  /\ Spec.recorded_in_result
       (fst (PlannerAgent.plan_and_execute (H0 := Examples.offline)
               (Examples.planner [Examples.worker_planner])
               "Summarize recent papers" Examples.offline_start))
       (VStr "t1") = false.
Proof.
  repeat split.
Qed.

(** C7 at work: the plain summarizer serves the plan's task. *)
Lemma plan_result_is_raw_results_witness :
  exists task agent result,
    PlannerAgent.decompose_goal (Examples.planner [Examples.plain_summarizer])
      "Summarize recent papers" = [task]
    /\ getitem task "task_id" = Ok (VStr "t1")
    /\ PlannerAgent.select_agent_for_task (Examples.planner [Examples.plain_summarizer]) task
       = Ok (Some agent)
    /\ PlannerAgent.dispatch_task (H0 := Examples.offline) agent task Examples.offline_start
       = (Ok result,
          Examples.offline_after [PlannerAgent.Dispatched Examples.plain_summarizer Examples.t1])
    /\ fst (PlannerAgent.execute_task (H0 := Examples.offline) agent task Examples.offline_start)
       = Ok result
    /\ [(VStr "t1",
         VDict [("summary", VStr ""); ("highlights", VList []); ("sources", VList [])])]
       = [(VStr "t1", result)]
    /\ PlannerAgent.lookup (VStr "t1")
         [(VStr "t1",
           VDict [("summary", VStr ""); ("highlights", VList []); ("sources", VList [])])]
       = Some result
    /\ (forall k,
          PlannerAgent.lookup k
            [(VStr "t1",
              VDict [("summary", VStr ""); ("highlights", VList []); ("sources", VList [])])]
          <> None ->
          py_eq k (VStr "t1") = true).
Proof.
  apply (@plan_result_is_raw_results Draft7.jsonschema Examples.offline
           (Examples.planner [Examples.plain_summarizer])
           "Summarize recent papers" Examples.offline_start).
  reflexivity.
Defined.

(** C7, the claim as first stated.  It has every entry hold a status, a result or
    error, and a count of attempts, beside an overall plan status.  The
    completed plan below returns the summarizer's own dict under ["t1"] and
    nothing else. *)
Lemma plan_result_has_no_status :
  fst (PlannerAgent.plan_and_execute (H0 := Examples.offline)
         (Examples.planner [Examples.plain_summarizer])
         "Summarize recent papers" Examples.offline_start)
  = Ok [(VStr "t1",
         VDict [("summary", VStr ""); ("highlights", VList []); ("sources", VList [])])]
  /\ Spec.is_plan_entry
       (VDict [("summary", VStr ""); ("highlights", VList []); ("sources", VList [])])
     = false
  /\ Spec.has_key
       (VDict [("summary", VStr ""); ("highlights", VList []); ("sources", VList [])])
       "status" = false
  /\ Spec.has_key
       (VDict [("summary", VStr ""); ("highlights", VList []); ("sources", VList [])])
       "attempts" = false
  /\ PlannerAgent.lookup (VStr "status")
       [(VStr "t1",
         VDict [("summary", VStr ""); ("highlights", VList []); ("sources", VList [])])]
     = None.
Proof.
  repeat split.
Qed.

(** C3 at work.  Two runs over a foreign agent that counts its calls: one starts with
    the counter at 0, the other at 41. *)
Lemma plan_and_execute_deterministic_witness :
  fst (PlannerAgent.plan_and_execute (H0 := Examples.echoing)
         (Examples.planner [Examples.foreign_summarizer]) "Summarize recent papers"
         (Examples.echo_start 0))
  = fst (PlannerAgent.plan_and_execute (H0 := Examples.echoing)
           (Examples.planner [Examples.foreign_summarizer]) "Summarize recent papers"
           (Examples.echo_start 41))
  /\ PlannerAgent.trace
       (snd (PlannerAgent.plan_and_execute (H0 := Examples.echoing)
               (Examples.planner [Examples.foreign_summarizer]) "Summarize recent papers"
               (Examples.echo_start 0)))
     = PlannerAgent.trace
         (snd (PlannerAgent.plan_and_execute (H0 := Examples.echoing)
                 (Examples.planner [Examples.foreign_summarizer]) "Summarize recent papers"
                 (Examples.echo_start 41)))
  /\ (forall task,
        In task (PlannerAgent.decompose_goal
                   (Examples.planner [Examples.foreign_summarizer])
                   "Summarize recent papers") ->
        forall agent,
          In (PlannerAgent.Dispatched agent task)
             (PlannerAgent.trace
                (snd (PlannerAgent.plan_and_execute (H0 := Examples.echoing)
                        (Examples.planner [Examples.foreign_summarizer])
                        "Summarize recent papers"
                        (Examples.echo_start 0))))
          <-> In (PlannerAgent.Dispatched agent task)
                (PlannerAgent.trace
                   (snd (PlannerAgent.plan_and_execute (H0 := Examples.echoing)
                           (Examples.planner [Examples.foreign_summarizer])
                           "Summarize recent papers"
                           (Examples.echo_start 41))))).
Proof.
  apply (@plan_and_execute_deterministic Draft7.jsonschema Examples.echoing
           (Examples.planner [Examples.foreign_summarizer])).
  - intros a task w1 w2 _. reflexivity.
  - reflexivity.
Defined.

End Runs.

(** * Further properties of the code *)

(** ** [BaseAgent.__init__]: what the constructor stores, and when it raises *)

Section Constructor.

Variables (c : BaseAgent.agent_class) (a : BaseAgent.init_args).

Let config : dict :=
  match BaseAgent.arg_agent_config_dict a with Some d => d | None => [] end.

(** The four steps of the constructor that can raise, in source order. *)
Let tools_step : exc (list value) :=
  match BaseAgent.arg_agent_tools a with
  | Some l => Ok l
  | None => BaseAgent.to_list (BaseAgent.cfg_get config "tools" (VList []))
  end.

Let rag_step : exc bool :=
  if truthy (BaseAgent.arg_rag_enabled a) then Ok true
  else
    enabled <- get (BaseAgent.cfg_get config "rag" (VDict [])) "enabled"
                   (BaseAgent.cfg_get config "rag_enabled" (VBool false)) ;;
    Ok (truthy enabled).

Let store_step : exc value :=
  match BaseAgent.arg_vector_store a with
  | Some s => Ok (VStr s)
  | None =>
      let v := BaseAgent.cfg_get config "vector_store" VNone in
      if truthy v then Ok v
      else get (BaseAgent.cfg_get config "rag" (VDict [])) "vector_store" VNone
  end.

Let caps_step : exc (list value) :=
  BaseAgent.to_list (BaseAgent.cfg_get config "capabilities" (VList [])).

Lemma init_steps :
  BaseAgent.__init__ c a
  = (tools <- tools_step ;; rag <- rag_step ;; store <- store_step ;;
     caps <- caps_step ;;
     Ok {| BaseAgent.cls := c;
           BaseAgent.llm := BaseAgent.arg_llm a;
           BaseAgent.agent_name := BaseAgent.arg_agent_name a;
           BaseAgent.agent_description := BaseAgent.arg_agent_description a;
           BaseAgent.agent_id := BaseAgent.arg_agent_id a;
           BaseAgent.agent_config_dict := config;
           BaseAgent.agent_tools := tools;
           BaseAgent.agent_memory := BaseAgent.arg_agent_memory a;
           BaseAgent.agent_persona := BaseAgent.arg_agent_persona a;
           BaseAgent.agent_prompt := BaseAgent.arg_agent_prompt a;
           BaseAgent.verbose := BaseAgent.arg_verbose a;
           BaseAgent.agent_role :=
             match BaseAgent.arg_agent_role a with
             | Some s => VStr s
             | None => BaseAgent.py_or (BaseAgent.cfg_get config "role" VNone)
                         (BaseAgent.cfg_get config "agent_role" VNone)
             end;
           BaseAgent.interactions :=
             match BaseAgent.arg_interactions a with
             | Some s => VStr s
             | None => BaseAgent.cfg_get config "interactions" VNone
             end;
           BaseAgent.rag_enabled := rag;
           BaseAgent.vector_store := store;
           BaseAgent.show_logger := BaseAgent.arg_show_logger a;
           BaseAgent.capabilities := caps;
           BaseAgent.input_schema := BaseAgent.cfg_get config "input_schema" VNone;
           BaseAgent.output_schema := BaseAgent.cfg_get config "output_schema" VNone |}).
Proof.
  reflexivity.
Qed.

(** What a successful construction stored. *)
Lemma init_stored (self : BaseAgent.t) :
  BaseAgent.__init__ c a = Ok self ->
  tools_step = Ok (BaseAgent.agent_tools self)
  /\ rag_step = Ok (BaseAgent.rag_enabled self)
  /\ store_step = Ok (BaseAgent.vector_store self)
  /\ caps_step = Ok (BaseAgent.capabilities self)
  /\ BaseAgent.agent_role self
     = match BaseAgent.arg_agent_role a with
       | Some s => VStr s
       | None => BaseAgent.py_or (BaseAgent.cfg_get config "role" VNone)
                   (BaseAgent.cfg_get config "agent_role" VNone)
       end
  /\ BaseAgent.interactions self
     = match BaseAgent.arg_interactions a with
       | Some s => VStr s
       | None => BaseAgent.cfg_get config "interactions" VNone
       end.
Proof.
  rewrite init_steps.
  destruct tools_step as [tools | e]; simpl; [ | discriminate ].
  destruct rag_step as [rag | e]; simpl; [ | discriminate ].
  destruct store_step as [store | e]; simpl; [ | discriminate ].
  destruct caps_step as [caps | e]; simpl; [ | discriminate ].
  intros E. injection E as <-. simpl. repeat split.
Qed.

(** X1.  For tools, role, interactions and vector store, an argument that
    is given (not [None]) is what the agent holds, whatever the config
    says. *)
Theorem init_explicit_arguments_win (self : BaseAgent.t) :
  BaseAgent.__init__ c a = Ok self ->
  (forall l, BaseAgent.arg_agent_tools a = Some l -> BaseAgent.agent_tools self = l)
  /\ (forall r, BaseAgent.arg_agent_role a = Some r -> BaseAgent.agent_role self = VStr r)
  /\ (forall i, BaseAgent.arg_interactions a = Some i ->
                BaseAgent.interactions self = VStr i)
  /\ (forall v, BaseAgent.arg_vector_store a = Some v ->
                BaseAgent.vector_store self = VStr v).
Proof.
  intros B. destruct (init_stored self B) as (T & _ & S & _ & R & I).
  subst tools_step store_step. cbv zeta in *.
  split; [ | split; [ | split ] ].
  - intros l E. rewrite E in T. injection T as <-. reflexivity.
  - intros r E. rewrite E in R. exact R.
  - intros i E. rewrite E in I. exact I.
  - intros v E. rewrite E in S. injection S as <-. reflexivity.
Qed.

(** X2.  An agent built from a config with no ["capabilities"] entry (or
    with no config at all) has an empty capability list: [can_handle]
    answers [False] to every task. *)
Theorem init_without_capabilities_handles_nothing (self : BaseAgent.t) :
  BaseAgent.__init__ c a = Ok self ->
  dict_lookup "capabilities" config = None ->
  BaseAgent.capabilities self = []
  /\ forall task, BaseAgent.can_handle self task = Ok false.
Proof.
  intros B L. destruct (init_stored self B) as (_ & _ & _ & C & _).
  subst caps_step. unfold BaseAgent.cfg_get in C. rewrite L in C.
  injection C as C.
  split; [ symmetry; exact C | ].
  intros task. rewrite can_handle_capable. unfold Spec.capable, Spec.lists_task_type.
  rewrite <- C. simpl. rewrite andb_false_r. reflexivity.
Qed.

Lemma contains_chars (s t : string) :
  contains (chars s) (VStr t) = true -> String.length t = 1.
Proof.
  induction s as [ | ch s IH ]; simpl; [ discriminate | ].
  intros E. apply orb_true_iff in E. destruct E as [E | E]; [ | exact (IH E) ].
  apply String.eqb_eq in E. subst t. reflexivity.
Qed.

(** X3.  A ["capabilities"] entry that is one string, not a list of
    strings, is stored character by character ([list("ab")] is
    [["a", "b"]]): the agent does not handle the task type the string spells,
    unless it is a single character. *)
Theorem init_string_capabilities_are_split (self : BaseAgent.t) (s : string) :
  BaseAgent.__init__ c a = Ok self ->
  dict_lookup "capabilities" config = Some (VStr s) ->
  BaseAgent.capabilities self = chars s
  /\ (String.length s <> 1 ->
      forall d, dict_lookup "task_type" d = Some (VStr s) ->
                BaseAgent.can_handle self (VDict d) = Ok false).
Proof.
  intros B L. destruct (init_stored self B) as (_ & _ & _ & C & _).
  subst caps_step. unfold BaseAgent.cfg_get in C. rewrite L in C. simpl in C.
  injection C as C. split; [ symmetry; exact C | ].
  intros N d T. rewrite can_handle_dict. unfold BaseAgent.cfg_get. rewrite T, <- C.
  destruct (contains (chars s) (VStr s)) eqn:E.
  - apply contains_chars in E. contradiction.
  - rewrite andb_false_r. reflexivity.
Qed.

(** X4.  A ["capabilities"] entry that is [None] (JSON [null]), a boolean
    or a number makes the constructor raise; so does such a ["tools"] entry
    when no tools argument is given. *)
Theorem init_raises_on_scalar_lists (v : value) :
  Facts.scalar v = true ->
  (dict_lookup "capabilities" config = Some v
   \/ (dict_lookup "tools" config = Some v /\ BaseAgent.arg_agent_tools a = None)) ->
  exists e, BaseAgent.__init__ c a = Raise e.
Proof.
  intros S [L | [L N]]; rewrite init_steps.
  - assert (C : caps_step = Raise TypeError).
    { subst caps_step. unfold BaseAgent.cfg_get. rewrite L.
      destruct v; try discriminate S; reflexivity. }
    rewrite C.
    destruct tools_step; simpl; [ | eexists; reflexivity ].
    destruct rag_step; simpl; [ | eexists; reflexivity ].
    destruct store_step; simpl; eexists; reflexivity.
  - assert (T : tools_step = Raise TypeError).
    { subst tools_step. rewrite N. unfold BaseAgent.cfg_get. rewrite L.
      destruct v; try discriminate S; reflexivity. }
    rewrite T. eexists. reflexivity.
Qed.

(** X5.  A ["rag"] entry that is not a dict makes the constructor raise
    when it has to read it, that is when the [rag_enabled] argument is falsy.
    With a truthy [rag_enabled] and a [vector_store] argument the entry is
    never read. *)
Theorem init_reads_rag_entry_lazily (v : value) :
  dict_lookup "rag" config = Some v ->
  isinstance_dict v = false ->
  (truthy (BaseAgent.arg_rag_enabled a) = false ->
   exists e, BaseAgent.__init__ c a = Raise e)
  /\ (truthy (BaseAgent.arg_rag_enabled a) = true ->
      forall s tools caps,
        BaseAgent.arg_vector_store a = Some s ->
        tools_step = Ok tools ->
        caps_step = Ok caps ->
        exists self,
          BaseAgent.__init__ c a = Ok self
          /\ BaseAgent.rag_enabled self = true
          /\ BaseAgent.vector_store self = VStr s).
Proof.
  intros L D. split.
  - intros F. rewrite init_steps.
    assert (R : rag_step = Raise (AttributeError "get")).
    { subst rag_step. cbv zeta. rewrite F. unfold BaseAgent.cfg_get at 1. rewrite L.
      destruct v; try discriminate D; reflexivity. }
    rewrite R. destruct tools_step; simpl; eexists; reflexivity.
  - intros T s tools caps V Ts Cs. rewrite init_steps, Ts, Cs.
    subst rag_step store_step. cbv zeta. rewrite T, V. simpl.
    eexists. split; [ reflexivity | split; reflexivity ].
Qed.

End Constructor.

(** ** [SummarizerAgent.execute_task]: errors, and what the result depends on *)

Section SummarizerMore.

Context `{Jsonschema}.

Variable self : BaseAgent.t.

(** The method after its validation step. *)
Lemma summarizer_after_validation (task payload : value) :
  get task "payload" (VDict []) = Ok payload ->
  BaseAgent.validate_input self payload = true ->
  SummarizerAgent.execute_task self task
  = (documents <- get payload "documents" (VList []) ;;
     docs <- iter documents ;;
     texts <- mapM SummarizerAgent.text_of docs ;;
     combined <- join SummarizerAgent.blank_line texts ;;
     all_highlights <- mapM SummarizerAgent.highlight_of docs ;;
     sources <- mapM SummarizerAgent.source_of docs ;;
     Ok (VDict [("summary", VStr (SummarizerAgent.truncate combined));
                ("highlights", VList (firstn 3 all_highlights));
                ("sources", VList sources)])).
Proof.
  intros P V. unfold SummarizerAgent.execute_task.
  rewrite P. cbv beta iota delta [bind]. rewrite V. reflexivity.
Qed.

(** X6.  [execute_task] raises [AttributeError] for a task that is not a
    dict, before any validation, and
    [ValueError("Invalid payload for SummarizerAgent")] for every dict task
    whose payload fails the input validation, whatever the documents are. *)
Theorem summarizer_rejects_before_reading (task : value) :
  (isinstance_dict task = false ->
   SummarizerAgent.execute_task self task = Raise (AttributeError "get"))
  /\ (isinstance_dict task = true ->
      BaseAgent.validate_input self (Spec.payload_of task) = false ->
      SummarizerAgent.execute_task self task
      = Raise (ValueError "Invalid payload for SummarizerAgent")).
Proof.
  split.
  - destruct task; try discriminate; intros _; reflexivity.
  - destruct task as [ | | | | | d ]; try discriminate. intros _ V.
    unfold SummarizerAgent.execute_task, get. simpl in V.
    unfold BaseAgent.cfg_get in V.
    destruct (dict_lookup "payload" d); cbv beta iota delta [bind];
      rewrite V; reflexivity.
Qed.

(** X7.  The result depends on the payload's ["documents"] only: two
    tasks whose payloads both pass validation and hold the same documents
    get the same answer, whatever else the tasks and payloads hold (the
    [summary_length] that [decompose_goal] sends is not read). *)
Theorem summarizer_reads_documents_only (task1 task2 payload1 payload2 : value) :
  get task1 "payload" (VDict []) = Ok payload1 ->
  get task2 "payload" (VDict []) = Ok payload2 ->
  BaseAgent.validate_input self payload1 = true ->
  BaseAgent.validate_input self payload2 = true ->
  get payload1 "documents" (VList []) = get payload2 "documents" (VList []) ->
  SummarizerAgent.execute_task self task1 = SummarizerAgent.execute_task self task2.
Proof.
  intros P1 P2 V1 V2 D.
  rewrite (summarizer_after_validation task1 payload1 P1 V1).
  rewrite (summarizer_after_validation task2 payload2 P2 V2).
  rewrite D. reflexivity.
Qed.

(** The result on documents the summarizer can read. *)
Lemma summarizer_on_documents (task payload : value) (docs : list value) :
  get task "payload" (VDict []) = Ok payload ->
  BaseAgent.validate_input self payload = true ->
  get payload "documents" (VList []) = Ok (VList docs) ->
  forallb Spec.doc_ok docs = true ->
  SummarizerAgent.execute_task self task
  = Ok (VDict [("summary",
                VStr (SummarizerAgent.truncate
                        (String.concat SummarizerAgent.blank_line
                           (map Spec.text_string docs))));
               ("highlights",
                VList (firstn 3 (map (fun d => VStr (substring 0 200 (Spec.text_string d)))
                                   docs)));
               ("sources", VList (map Spec.source_entry docs))]).
Proof.
  intros P V D W. rewrite forallb_forall in W.
  rewrite (summarizer_after_validation task payload P V), D.
  cbv beta iota delta [bind iter].
  rewrite (mapM_total _ (fun d => VStr (Spec.text_string d)) docs)
    by (intros d I; apply text_of_doc, W, I).
  cbv beta iota delta [bind].
  rewrite <- (map_map Spec.text_string VStr), join_strings.
  rewrite (mapM_total _ (fun d => VStr (substring 0 200 (Spec.text_string d))) docs)
    by (intros d I; apply highlight_of_doc, W, I).
  rewrite (mapM_total _ Spec.source_entry docs)
    by (intros d I; apply source_of_doc, W, I).
  reflexivity.
Qed.

(** A payload with no documents (an empty list, or no ["documents"] entry
    at all) that passes validation gets the empty summary: [""], no
    highlight, no source. *)
Lemma summarizer_on_no_documents (task payload : value) :
  get task "payload" (VDict []) = Ok payload ->
  BaseAgent.validate_input self payload = true ->
  get payload "documents" (VList []) = Ok (VList []) ->
  SummarizerAgent.execute_task self task = Ok Facts.empty_summary.
Proof.
  intros P V D.
  rewrite (summarizer_on_documents task payload [] P V D eq_refl). reflexivity.
Qed.

End SummarizerMore.

(** ** Which exceptions the summarizer ends with *)

Section SummarizerErrors.

Context `{Jsonschema}.

Lemma mapM_raises {A B} (f : A -> exc B) (P : exn -> Prop) (l : list A) (e : exn) :
  (forall x e', f x = Raise e' -> P e') -> mapM f l = Raise e -> P e.
Proof.
  intros F. induction l as [ | x l IH ]; simpl; [ discriminate | ].
  destruct (f x) as [y | e'] eqn:E; simpl.
  - destruct (mapM f l) as [ys | e'']; simpl; [ discriminate | ].
    intros R. injection R as <-. apply IH. reflexivity.
  - intros R. injection R as <-. exact (F x e' E).
Qed.

Lemma get_raises (v : value) (k : string) (default : value) (e : exn) :
  get v k default = Raise e -> e = AttributeError "get".
Proof.
  destruct v; simpl; try (intros R; injection R as <-; reflexivity).
  destruct (dict_lookup k d); discriminate.
Qed.

Lemma iter_raises (v : value) (e : exn) : iter v = Raise e -> e = TypeError.
Proof.
  destruct v; simpl; try discriminate; intros R; injection R as <-; reflexivity.
Qed.

Lemma slice_to_raises (n : nat) (v : value) (e : exn) :
  slice_to n v = Raise e -> e = TypeError.
Proof.
  destruct v; simpl; try discriminate; intros R; injection R as <-; reflexivity.
Qed.

Lemma join_raises (sep : string) (items : list value) (e : exn) :
  join sep items = Raise e -> e = TypeError.
Proof.
  induction items as [ | x items IH ]; [ discriminate | ].
  destruct x; try (simpl; intros R; injection R as <-; reflexivity).
  destruct items as [ | y items ]; [ discriminate | ].
  change (join sep (VStr s :: y :: items))
    with (t <- join sep (y :: items) ;; Ok (s ++ sep ++ t)%string).
  destruct (join sep (y :: items)) as [t | e']; simpl; [ discriminate | ].
  intros R. injection R as <-. apply IH. reflexivity.
Qed.

Lemma text_of_raises (d : value) (e : exn) :
  SummarizerAgent.text_of d = Raise e -> Facts.summarizer_error e = true.
Proof.
  intros R. apply get_raises in R. subst e. reflexivity.
Qed.

Lemma highlight_of_raises (d : value) (e : exn) :
  SummarizerAgent.highlight_of d = Raise e -> Facts.summarizer_error e = true.
Proof.
  unfold SummarizerAgent.highlight_of.
  destruct (SummarizerAgent.text_of d) as [t | e'] eqn:T; simpl.
  - intros R. apply slice_to_raises in R. subst e. reflexivity.
  - intros R. injection R as <-. exact (text_of_raises d e' T).
Qed.

Lemma source_of_raises (d : value) (e : exn) :
  SummarizerAgent.source_of d = Raise e -> Facts.summarizer_error e = true.
Proof.
  unfold SummarizerAgent.source_of.
  destruct (get d "id" VNone) as [i | e'] eqn:I; simpl.
  - destruct (get d "title" VNone) as [t | e''] eqn:T; simpl; [ discriminate | ].
    intros R. injection R as <-. apply get_raises in T. subst e''. reflexivity.
  - intros R. injection R as <-. apply get_raises in I. subst e'. reflexivity.
Qed.

(** X9.  Whatever the agent and the task, [SummarizerAgent.execute_task]
    either returns or raises one of three exceptions: [AttributeError] (a
    [.get] on something that is not a dict), [TypeError] (documents that
    cannot be iterated, a text that is not a string), or its own
    [ValueError("Invalid payload for SummarizerAgent")]. *)
Theorem summarizer_raises_only (self : BaseAgent.t) (task : value) :
  match SummarizerAgent.execute_task self task with
  | Ok _ => True
  | Raise e => Facts.summarizer_error e = true
  end.
Proof.
  unfold SummarizerAgent.execute_task.
  destruct (get task "payload" (VDict [])) as [payload | e] eqn:P; simpl;
    [ | apply get_raises in P; subst e; reflexivity ].
  destruct (BaseAgent.validate_input self payload); simpl; [ | reflexivity ].
  destruct (get payload "documents" (VList [])) as [documents | e] eqn:D; simpl;
    [ | apply get_raises in D; subst e; reflexivity ].
  destruct (iter documents) as [docs | e] eqn:I; simpl;
    [ | apply iter_raises in I; subst e; reflexivity ].
  destruct (mapM SummarizerAgent.text_of docs) as [texts | e] eqn:T; simpl;
    [ | exact (mapM_raises _ _ docs e text_of_raises T) ].
  destruct (join SummarizerAgent.blank_line texts) as [combined | e] eqn:J; simpl;
    [ | apply join_raises in J; subst e; reflexivity ].
  destruct (mapM SummarizerAgent.highlight_of docs) as [hs | e] eqn:Hs; simpl;
    [ | exact (mapM_raises _ _ docs e highlight_of_raises Hs) ].
  destruct (mapM SummarizerAgent.source_of docs) as [ss | e] eqn:Ss; simpl;
    [ exact Logic.I | exact (mapM_raises _ _ docs e source_of_raises Ss) ].
Qed.

End SummarizerErrors.

(** ** Selection over a longer registry *)

Section SelectMore.

Context `{Jsonschema}.

Lemma hd_error_app {A} (l1 l2 : list A) :
  hd_error (l1 ++ l2) = match hd_error l1 with Some a => Some a | None => hd_error l2 end.
Proof.
  destruct l1; reflexivity.
Qed.

(** X10.  Selection over a registry in two parts is selection over the
    first part and, only when that finds no agent, over the second: the first
    match wins, and agents appended to a registry never take a task from an
    agent that was selected before. *)
Theorem select_agent_first_match_wins
  (base : BaseAgent.t) (reg more : list BaseAgent.t) (task : value) :
  PlannerAgent.select_agent_for_task
    {| PlannerAgent.base := base; PlannerAgent.registry := reg ++ more |} task
  = match PlannerAgent.select_agent_for_task
            {| PlannerAgent.base := base; PlannerAgent.registry := reg |} task with
    | Ok (Some a) => Ok (Some a)
    | _ => PlannerAgent.select_agent_for_task
             {| PlannerAgent.base := base; PlannerAgent.registry := more |} task
    end.
Proof.
  rewrite !select_agent_for_task_eq. simpl.
  rewrite !filter_app, hd_error_app.
  destruct (hd_error _); reflexivity.
Qed.

End SelectMore.

(** ** [dispatch_task] and the loop of [plan_and_execute] *)

Section LoopMore.

Context `{Jsonschema} `{UserAgents}.

(** X11.  [dispatch_task] hands the agent's result on unchanged: what it
    returns is what the entrypoint returned, an exception of the entrypoint
    is raised as it is (the output is not validated then), the entrypoint is
    called once, and without an output schema [dispatch_task] is the
    entrypoint call. *)
Theorem dispatch_task_passes_result_through
  (agent : BaseAgent.t) (task : value) (s : PlannerAgent.state) :
  (forall r, fst (PlannerAgent.dispatch_task agent task s) = Ok r ->
             fst (PlannerAgent.execute_task agent task s) = Ok r)
  /\ (forall e, fst (PlannerAgent.execute_task agent task s) = Raise e ->
                fst (PlannerAgent.dispatch_task agent task s) = Raise e)
  /\ snd (PlannerAgent.dispatch_task agent task s)
     = snd (PlannerAgent.execute_task agent task s)
  /\ PlannerAgent.trace (snd (PlannerAgent.dispatch_task agent task s))
     = PlannerAgent.trace s ++ [PlannerAgent.Dispatched agent task]
  /\ (truthy (BaseAgent.output_schema agent) = false ->
      PlannerAgent.dispatch_task agent task s = PlannerAgent.execute_task agent task s).
Proof.
  rewrite dispatch_task_trace, dispatch_task_eq.
  destruct (PlannerAgent.execute_task agent task s) as [[r | e] s'] eqn:E; simpl.
  - split; [ | split; [ discriminate | split; [ reflexivity | split; [ reflexivity | ] ] ] ].
    + intros r'.
      destruct (truthy (BaseAgent.output_schema agent)
                && negb (jsonschema_validate r (BaseAgent.output_schema agent)));
        simpl; [ discriminate | auto ].
    + intros ->. reflexivity.
  - split; [ discriminate | ]. split; [ auto | ]. repeat split.
Qed.

Variable self : PlannerAgent.t.

Lemma dispatches_cons (agent : BaseAgent.t) (agents : list BaseAgent.t)
  (task : value) (tasks : list value) :
  Facts.dispatches (agent :: agents) (task :: tasks)
  = PlannerAgent.Dispatched agent task :: Facts.dispatches agents tasks.
Proof.
  reflexivity.
Qed.

(** X12.  Whatever its outcome, the loop dispatches the tasks in list
    order, each at most once and to the agent selected for it: the trace
    grows by the dispatches of a prefix of the task list.  It stops at the
    first task that fails; when the loop returns, the prefix is the whole
    list. *)
Theorem loop_dispatches_each_task_once (tasks : list value) :
  forall (acc : PlannerAgent.results) (s : PlannerAgent.state),
  exists agents : list BaseAgent.t,
    List.length agents <= List.length tasks
    /\ Forall2 (fun a t => PlannerAgent.select_agent_for_task self t = Ok (Some a))
         agents (firstn (List.length agents) tasks)
    /\ PlannerAgent.trace (snd (PlannerAgent.execute_tasks self tasks acc s))
       = PlannerAgent.trace s ++ Facts.dispatches agents tasks
    /\ (forall res, fst (PlannerAgent.execute_tasks self tasks acc s) = Ok res ->
                    List.length agents = List.length tasks).
Proof.
  induction tasks as [ | task rest IH ]; intros acc s.
  - exists []. simpl. rewrite app_nil_r. repeat split; auto.
  - rewrite execute_tasks_cons.
    destruct (PlannerAgent.select_agent_for_task self task) as [[agent | ] | e] eqn:S.
    + pose proof (dispatch_task_trace agent task s) as T.
      destruct (PlannerAgent.dispatch_task agent task s) as [[r | e] s'] eqn:D;
        simpl in T.
      * destruct (getitem task "task_id") as [id | e].
        -- destruct (PlannerAgent.setitem acc id r) as [acc' | e].
           ++ destruct (IH acc' s') as (agents & Len & Sel & Tr & Ok').
              exists (agent :: agents). simpl. split; [ lia | ].
              split; [ constructor; assumption | ].
              split; [ rewrite Tr, T, <- app_assoc; reflexivity | ].
              intros res R. rewrite (Ok' res R). reflexivity.
           ++ exists [agent]. simpl. split; [ lia | ].
              split; [ constructor; [ exact S | constructor ] | ].
              split; [ exact T | discriminate ].
        -- exists [agent]. simpl. split; [ lia | ].
           split; [ constructor; [ exact S | constructor ] | ].
           split; [ exact T | discriminate ].
      * exists [agent]. simpl. split; [ lia | ].
        split; [ constructor; [ exact S | constructor ] | ].
        split; [ exact T | discriminate ].
    + exists []. simpl. rewrite app_nil_r.
      destruct (getitem task "task_id"); simpl;
        (split; [ lia | split; [ constructor | split; [ reflexivity | discriminate ] ] ]).
    + exists []. simpl. rewrite app_nil_r.
      split; [ lia | split; [ constructor | split; [ reflexivity | discriminate ] ] ].
Qed.

Lemma py_eq_refl_hashable (k : value) :
  PlannerAgent.hashable k = true -> py_eq k k = true.
Proof.
  destruct k; simpl; try discriminate; intros _.
  - reflexivity.
  - destruct b; reflexivity.
  - apply Z.eqb_refl.
  - apply String.eqb_refl.
Qed.

Lemma lookup_store_same (k v : value) (d : PlannerAgent.results) :
  PlannerAgent.hashable k = true ->
  PlannerAgent.lookup k (PlannerAgent.store k v d) = Some v.
Proof.
  intros Hk. induction d as [ | [k' v'] d IH ]; simpl.
  - rewrite (py_eq_refl_hashable k Hk). reflexivity.
  - destruct (py_eq k k') eqn:E; simpl; rewrite E; [ reflexivity | exact IH ].
Qed.

Lemma has_entry_store (j k v : value) (d : PlannerAgent.results) :
  Facts.has_entry j d = true -> Facts.has_entry j (PlannerAgent.store k v d) = true.
Proof.
  unfold Facts.has_entry. induction d as [ | [k' v'] d IH ]; simpl; [ discriminate | ].
  destruct (py_eq k k'); simpl; destruct (py_eq j k'); auto.
Qed.

Lemma length_store (k v : value) (d : PlannerAgent.results) :
  List.length (PlannerAgent.store k v d) <= S (List.length d).
Proof.
  induction d as [ | [k' v'] d IH ]; simpl; [ lia | ].
  destruct (py_eq k k'); simpl; lia.
Qed.

Lemma setitem_ok (acc acc' : PlannerAgent.results) (k v : value) :
  PlannerAgent.setitem acc k v = Ok acc' ->
  PlannerAgent.hashable k = true /\ acc' = PlannerAgent.store k v acc.
Proof.
  unfold PlannerAgent.setitem. destruct (PlannerAgent.hashable k); [ | discriminate ].
  intros E. injection E as <-. split; reflexivity.
Qed.

(** X13.  When the loop returns, the mapping holds an entry under the id
    of every task it ran, keeps every key it started with, and has grown by
    at most one entry per task. *)
Theorem loop_result_covers_every_task (tasks : list value) :
  forall (acc res : PlannerAgent.results) (s s' : PlannerAgent.state),
    PlannerAgent.execute_tasks self tasks acc s = (Ok res, s') ->
    (forall task, In task tasks ->
       exists id, getitem task "task_id" = Ok id /\ Facts.has_entry id res = true)
    /\ (forall k, Facts.has_entry k acc = true -> Facts.has_entry k res = true)
    /\ List.length res <= List.length acc + List.length tasks.
Proof.
  induction tasks as [ | task rest IH ]; intros acc res s s'.
  - simpl. unfold PlannerAgent.lift. intros E. injection E as <- _.
    split; [ intros task [] | ]. split; [ auto | lia ].
  - rewrite execute_tasks_cons.
    destruct (PlannerAgent.select_agent_for_task self task) as [[agent | ] | e];
      [ | destruct (getitem task "task_id"); discriminate | discriminate ].
    destruct (PlannerAgent.dispatch_task agent task s) as [[r | e] s0]; [ | discriminate ].
    destruct (getitem task "task_id") as [id | e] eqn:G; [ | discriminate ].
    destruct (PlannerAgent.setitem acc id r) as [acc' | e] eqn:St; [ | discriminate ].
    intros E. destruct (IH acc' res s0 s' E) as (Cov & Keep & Len).
    destruct (setitem_ok _ _ _ _ St) as [Hk ->].
    split; [ | split ].
    + intros t [ <- | I ]; [ | exact (Cov t I) ].
      exists id. split; [ exact G | ]. apply Keep.
      unfold Facts.has_entry. rewrite (lookup_store_same id r acc Hk). reflexivity.
    + intros k K. apply Keep, has_entry_store, K.
    + pose proof (length_store id r acc). simpl. lia.
Qed.

(** X14.  The entry under the last task's id is the last task's own
    result, whether or not an earlier task had the same id: a later result
    overwrites an earlier one. *)
Theorem loop_keeps_the_last_result
  (pre : list value) (task : value) (acc res : PlannerAgent.results)
  (s s' : PlannerAgent.state) :
  PlannerAgent.execute_tasks self (pre ++ [task]) acc s = (Ok res, s') ->
  exists acc' s0 agent r id,
    PlannerAgent.execute_tasks self pre acc s = (Ok acc', s0)
    /\ PlannerAgent.select_agent_for_task self task = Ok (Some agent)
    /\ PlannerAgent.dispatch_task agent task s0 = (Ok r, s')
    /\ getitem task "task_id" = Ok id
    /\ PlannerAgent.lookup id res = Some r.
Proof.
  rewrite execute_tasks_app.
  destruct (PlannerAgent.execute_tasks self pre acc s) as [[acc' | e] s0] eqn:P;
    [ | discriminate ].
  rewrite execute_tasks_cons.
  destruct (PlannerAgent.select_agent_for_task self task) as [[agent | ] | e] eqn:S;
    [ | destruct (getitem task "task_id"); discriminate | discriminate ].
  destruct (PlannerAgent.dispatch_task agent task s0) as [[r | e] s1] eqn:D;
    [ | discriminate ].
  destruct (getitem task "task_id") as [id | e] eqn:G; [ | discriminate ].
  destruct (PlannerAgent.setitem acc' id r) as [acc'' | e] eqn:St; [ | discriminate ].
  destruct (setitem_ok _ _ _ _ St) as [Hk ->].
  simpl. unfold PlannerAgent.lift. intros E. injection E as <- <-.
  exists acc', s0, agent, r, id.
  split; [ reflexivity | ]. split; [ reflexivity | ]. split; [ exact D | ].
  split; [ reflexivity | ]. apply lookup_store_same, Hk.
Qed.

End LoopMore.

(** ** The plan, from construction to result *)

Section PlanMore.

Context `{Jsonschema} `{UserAgents}.

(** X15.  A planner constructed without a registry, or with an empty one,
    cannot plan: for every goal, [plan_and_execute] raises the no-agent error
    for ["t1"] and calls no agent. *)
Theorem planner_without_registry_cannot_plan
  (a : BaseAgent.init_args) (reg : option (list BaseAgent.t)) (self : PlannerAgent.t)
  (goal : string) (s : PlannerAgent.state) :
  PlannerAgent.__init__ a reg = Ok self ->
  reg = None \/ reg = Some [] ->
  PlannerAgent.registry self = []
  /\ PlannerAgent.plan_and_execute self goal s
     = (Raise (PlannerAgent.no_agent_available (VStr "t1")), s).
Proof.
  intros B R. unfold PlannerAgent.__init__ in B.
  destruct (BaseAgent.__init__ BaseAgent.PlannerAgentClass a) as [b | e];
    simpl in B; [ | discriminate ].
  injection B as <-.
  assert (E : match reg with Some l => l | None => [] end = [])
    by (destruct R as [-> | ->]; reflexivity).
  simpl. rewrite E. split; reflexivity.
Qed.

(** X16.  When the agent selected for the plan's task is a
    [SummarizerAgent], the result does not depend on the goal: the task
    carries no document, so the agent returns the empty summary.  The plan
    returns [{"t1": empty summary}] after one dispatch, or raises the
    output-validation error when the agent's output schema rejects the empty
    summary. *)
Theorem plan_with_summarizer_ignores_goal
  (self : PlannerAgent.t) (goal : string) (s : PlannerAgent.state)
  (task : value) (agent : BaseAgent.t) :
  In task (PlannerAgent.decompose_goal self goal) ->
  PlannerAgent.select_agent_for_task self task = Ok (Some agent) ->
  BaseAgent.cls agent = BaseAgent.SummarizerAgentClass ->
  PlannerAgent.plan_and_execute self goal s
  = (if truthy (BaseAgent.output_schema agent)
        && negb (jsonschema_validate Facts.empty_summary (BaseAgent.output_schema agent))
     then Raise PlannerAgent.output_validation_failed
     else Ok [(VStr "t1", Facts.empty_summary)],
     {| PlannerAgent.world := PlannerAgent.world s;
        PlannerAgent.trace := PlannerAgent.trace s ++ [PlannerAgent.Dispatched agent task] |}).
Proof.
  intros I S C.
  destruct (plan_and_execute_eq self goal task s I) as [_ ->]. rewrite S.
  destruct (select_some_first task self agent S) as (_ & _ & _ & _ & A & _).
  destruct I as [ <- | [] ].
  rewrite dispatch_task_eq. unfold PlannerAgent.execute_task. rewrite C.
  match goal with
  | |- context [SummarizerAgent.execute_task agent ?t] =>
      rewrite (summarizer_on_no_documents agent t (Spec.payload_of t) eq_refl A eq_refl)
  end.
  destruct (truthy (BaseAgent.output_schema agent)
            && negb (jsonschema_validate Facts.empty_summary (BaseAgent.output_schema agent)));
    reflexivity.
Qed.

End PlanMore.

(** ** [ResearchAgent.execute_task] *)

Section Research.

Context `{Jsonschema} `{Builtins}.

Variable self : BaseAgent.t.

Lemma normalize_dict (i : nat) (kv : dict) :
  ResearchAgent.normalize i (VDict kv) = Ok (Facts.normal_form i (VDict kv)).
Proof.
  unfold ResearchAgent.normalize, Facts.normal_form, get, BaseAgent.cfg_get.
  destruct (dict_lookup "id" kv), (dict_lookup "title" kv),
    (dict_lookup "text" kv), (dict_lookup "source" kv); reflexivity.
Qed.

Lemma normalize_from_dicts (docs : list value) :
  forall i, forallb isinstance_dict docs = true ->
            ResearchAgent.normalize_from i docs = Ok (Facts.normal_forms i docs).
Proof.
  induction docs as [ | d docs IH ]; intros i A; simpl; [ reflexivity | ].
  simpl in A. apply andb_true_iff in A. destruct A as [D A].
  destruct d; try discriminate D.
  rewrite normalize_dict. cbv beta iota delta [bind]. rewrite (IH (S i) A). reflexivity.
Qed.

Lemma normal_forms_length (docs : list value) :
  forall i, List.length (Facts.normal_forms i docs) = List.length docs.
Proof.
  induction docs as [ | d docs IH ]; intros i; simpl; [ reflexivity | ].
  rewrite IH. reflexivity.
Qed.

Lemma normal_forms_nth (docs : list value) :
  forall i n d, nth_error docs n = Some d ->
                nth_error (Facts.normal_forms i docs) n = Some (Facts.normal_form (i + n) d).
Proof.
  induction docs as [ | x docs IH ]; intros i [ | n ] d; simpl; try discriminate.
  - intros E. injection E as <-. rewrite Nat.add_0_r. reflexivity.
  - intros E. rewrite (IH (S i) n d E). f_equal. f_equal. lia.
Qed.

Lemma normal_forms_normalized (docs : list value) :
  forall i, forallb isinstance_dict docs = true ->
            forallb Facts.normalized_doc (Facts.normal_forms i docs) = true.
Proof.
  induction docs as [ | d docs IH ]; intros i A; simpl; [ reflexivity | ].
  simpl in A. apply andb_true_iff in A. destruct A as [D A].
  destruct d; try discriminate D. simpl. apply IH, A.
Qed.

(** A normalized document is its own normal form, at any index. *)
Lemma normal_form_fixed (i : nat) (d : value) :
  Facts.normalized_doc d = true -> Facts.normal_form i d = d.
Proof.
  destruct d as [ | | | | | kv ]; try discriminate.
  destruct kv as [ | [k1 v1] [ | [k2 v2] [ | [k3 v3] [ | [k4 v4] [ | ] ] ] ] ];
    try discriminate.
  unfold Facts.normalized_doc. intros F.
  apply andb_true_iff in F. destruct F as [F F4].
  apply andb_true_iff in F. destruct F as [F F3].
  apply andb_true_iff in F. destruct F as [F1 F2].
  apply String.eqb_eq in F1, F2, F3, F4. subst. reflexivity.
Qed.

Lemma normal_forms_fixed (docs : list value) :
  forall i, forallb Facts.normalized_doc docs = true -> Facts.normal_forms i docs = docs.
Proof.
  induction docs as [ | d docs IH ]; intros i A; simpl; [ reflexivity | ].
  simpl in A. apply andb_true_iff in A. destruct A as [D A].
  rewrite (normal_form_fixed i d D), (IH (S i) A). reflexivity.
Qed.

Lemma normalized_is_dict (d : value) :
  Facts.normalized_doc d = true -> isinstance_dict d = true.
Proof.
  destruct d; try discriminate. reflexivity.
Qed.

(** The method in the mode ["documents"], after validation. *)
Lemma research_on_documents (task payload : value) (docs : list value) :
  get task "payload" (VDict []) = Ok payload ->
  BaseAgent.validate_input self payload = true ->
  get payload "mode" VNone = Ok (VStr "documents") ->
  get payload "documents" (VList []) = Ok (VList docs) ->
  forallb isinstance_dict docs = true ->
  ResearchAgent.execute_task self task
  = Ok (VDict [("documents", VList (Facts.normal_forms 0 docs));
               ("metadata", VDict [("retrieval_mode", VStr "provided")])]).
Proof.
  intros P V M D A. unfold ResearchAgent.execute_task.
  rewrite P. cbv beta iota delta [bind]. rewrite V. cbv beta iota delta [negb].
  rewrite M. cbv beta iota delta [bind].
  change (py_eq (VStr "documents") (VStr "documents")) with true. cbv iota.
  rewrite D. cbv beta iota delta [bind iter].
  rewrite (normalize_from_dicts docs 0 A). reflexivity.
Qed.

(** X17.  In the mode ["documents"], on a validated payload whose
    documents are dicts, [execute_task] returns as many documents as it was
    given, in the same order, each with exactly the keys [id], [title],
    [text], [source]: the entries of the input document where it has them,
    and otherwise ["doc-<index>"] for the id, the id for the title, [""] for
    the text and [None] for the source. *)
Theorem research_normalizes_documents (task payload : value) (docs : list value) :
  get task "payload" (VDict []) = Ok payload ->
  BaseAgent.validate_input self payload = true ->
  get payload "mode" VNone = Ok (VStr "documents") ->
  get payload "documents" (VList []) = Ok (VList docs) ->
  forallb isinstance_dict docs = true ->
  exists out : list value,
    ResearchAgent.execute_task self task
    = Ok (VDict [("documents", VList out);
                 ("metadata", VDict [("retrieval_mode", VStr "provided")])])
    /\ List.length out = List.length docs
    /\ forall n kv,
         nth_error docs n = Some (VDict kv) ->
         nth_error out n
         = Some (VDict
                   [("id", BaseAgent.cfg_get kv "id" (VStr (ResearchAgent.doc_name n)));
                    ("title",
                     BaseAgent.cfg_get kv "title"
                       (BaseAgent.cfg_get kv "id" (VStr (ResearchAgent.doc_name n))));
                    ("text", BaseAgent.cfg_get kv "text" (VStr ""));
                    ("source", BaseAgent.cfg_get kv "source" VNone)]).
Proof.
  intros P V M D A. exists (Facts.normal_forms 0 docs).
  split; [ exact (research_on_documents task payload docs P V M D A) | ].
  split; [ apply normal_forms_length | ].
  intros n kv E. rewrite (normal_forms_nth docs 0 n _ E). reflexivity.
Qed.

Lemma normalize_from_ok (docs : list value) :
  forall i out, ResearchAgent.normalize_from i docs = Ok out ->
                forallb isinstance_dict docs = true.
Proof.
  induction docs as [ | d docs IH ]; intros i out; simpl; [ reflexivity | ].
  destruct d; try discriminate. rewrite normalize_dict. cbv beta iota delta [bind].
  destruct (ResearchAgent.normalize_from (S i) docs) as [ns | e] eqn:R; [ | discriminate ].
  intros _. exact (IH (S i) ns R).
Qed.

Lemma research_provided (docs : list value) :
  ResearchAgent.execute_task self (Facts.provided docs)
  = if BaseAgent.validate_input self (Spec.payload_of (Facts.provided docs))
    then normalized <- ResearchAgent.normalize_from 0 docs ;;
         Ok (VDict [("documents", VList normalized);
                    ("metadata", VDict [("retrieval_mode", VStr "provided")])])
    else Raise (ValueError "Invalid payload for ResearchAgent").
Proof.
  unfold ResearchAgent.execute_task, Facts.provided.
  change (get (VDict [("payload", VDict [("mode", VStr "documents");
                                         ("documents", VList docs)])])
            "payload" (VDict []))
    with (Ok (VDict [("mode", VStr "documents"); ("documents", VList docs)])).
  cbv beta iota delta [bind].
  change (Spec.payload_of
            (VDict [("payload", VDict [("mode", VStr "documents");
                                       ("documents", VList docs)])]))
    with (VDict [("mode", VStr "documents"); ("documents", VList docs)]).
  destruct (BaseAgent.validate_input self
              (VDict [("mode", VStr "documents"); ("documents", VList docs)]));
    reflexivity.
Qed.

(** X18.  Normalizing is idempotent: the documents [execute_task] returns
    in the mode ["documents"], given back to it in the same mode (and
    passing validation again), come out unchanged. *)
Theorem research_normalization_is_idempotent (docs out : list value) :
  ResearchAgent.execute_task self (Facts.provided docs)
  = Ok (VDict [("documents", VList out);
               ("metadata", VDict [("retrieval_mode", VStr "provided")])]) ->
  BaseAgent.validate_input self (Spec.payload_of (Facts.provided out)) = true ->
  ResearchAgent.execute_task self (Facts.provided out)
  = Ok (VDict [("documents", VList out);
               ("metadata", VDict [("retrieval_mode", VStr "provided")])]).
Proof.
  intros E V2. rewrite research_provided in E.
  destruct (BaseAgent.validate_input self (Spec.payload_of (Facts.provided docs)));
    [ | discriminate E ].
  destruct (ResearchAgent.normalize_from 0 docs) as [ns | e] eqn:N; [ | discriminate E ].
  cbv beta iota delta [bind] in E. injection E as <-.
  pose proof (normalize_from_ok docs 0 ns N) as A.
  rewrite (normalize_from_dicts docs 0 A) in N. injection N as <-.
  pose proof (normal_forms_normalized docs 0 A) as Nd.
  assert (A' : forallb isinstance_dict (Facts.normal_forms 0 docs) = true).
  { apply forallb_forall. intros d I. apply normalized_is_dict.
    rewrite forallb_forall in Nd. exact (Nd d I). }
  rewrite research_provided, V2, (normalize_from_dicts _ 0 A').
  rewrite (normal_forms_fixed _ 0 Nd). reflexivity.
Qed.

(** X19.  In any other mode (a missing ["mode"] too), on a validated
    payload that is a dict, [execute_task] does not raise: it returns one
    simulated document with id ["sim-1"] and source ["simulator"], and echoes
    the query (the empty string when the payload has none) in the metadata;
    for a query that is a string, the title is ["Result for: "] followed by
    the query. *)
Theorem research_simulates_other_modes (task : value) (payload : dict) :
  get task "payload" (VDict []) = Ok (VDict payload) ->
  BaseAgent.validate_input self (VDict payload) = true ->
  py_eq (BaseAgent.cfg_get payload "mode" VNone) (VStr "documents") = false ->
  exists title text : string,
    ResearchAgent.execute_task self task
    = Ok (VDict [("documents",
                  VList [VDict [("id", VStr "sim-1"); ("title", VStr title);
                                ("text", VStr text); ("source", VStr "simulator")]]);
                 ("metadata",
                  VDict [("query", BaseAgent.cfg_get payload "query" (VStr ""))])])
    /\ forall q, BaseAgent.cfg_get payload "query" (VStr "") = VStr q ->
                 title = ("Result for: " ++ q)%string
                 /\ text = ("Simulated content for query '" ++ q ++ "'")%string.
Proof.
  intros P V M.
  exists ("Result for: "
            ++ ResearchAgent.str (BaseAgent.cfg_get payload "query" (VStr "")))%string,
         ("Simulated content for query '"
            ++ ResearchAgent.str (BaseAgent.cfg_get payload "query" (VStr "")) ++ "'")%string.
  split.
  - unfold ResearchAgent.execute_task.
    rewrite P. cbv beta iota delta [bind]. rewrite V. cbv beta iota delta [negb].
    unfold get, BaseAgent.cfg_get in *.
    destruct (dict_lookup "mode" payload) as [mode | ]; cbv beta iota delta [bind];
      rewrite M; destruct (dict_lookup "query" payload); reflexivity.
  - intros q ->. split; reflexivity.
Qed.

Lemma normalize_raises (i : nat) (d : value) (e : exn) :
  ResearchAgent.normalize i d = Raise e -> Facts.research_error e = true.
Proof.
  destruct d; try (intros R; injection R as <-; reflexivity).
  rewrite normalize_dict. discriminate.
Qed.

Lemma normalize_from_raises (docs : list value) :
  forall i e, ResearchAgent.normalize_from i docs = Raise e -> Facts.research_error e = true.
Proof.
  induction docs as [ | d docs IH ]; intros i e; simpl; [ discriminate | ].
  destruct (ResearchAgent.normalize i d) as [n | e'] eqn:N; simpl.
  - destruct (ResearchAgent.normalize_from (S i) docs) as [ns | e''] eqn:R; simpl;
      [ discriminate | ].
    intros E. injection E as <-. exact (IH (S i) e'' R).
  - intros E. injection E as <-. exact (normalize_raises i d e' N).
Qed.

(** X20.  Whatever the agent and the task, [ResearchAgent.execute_task]
    either returns or raises one of three exceptions: [AttributeError] (a
    task, payload or document that is not a dict), [TypeError] (documents
    that cannot be iterated), or its own
    [ValueError("Invalid payload for ResearchAgent")]. *)
Theorem research_raises_only (task : value) :
  match ResearchAgent.execute_task self task with
  | Ok _ => True
  | Raise e => Facts.research_error e = true
  end.
Proof.
  unfold ResearchAgent.execute_task.
  destruct (get task "payload" (VDict [])) as [payload | e] eqn:P; simpl;
    [ | apply get_raises in P; subst e; reflexivity ].
  destruct (BaseAgent.validate_input self payload); simpl; [ | reflexivity ].
  destruct (get payload "mode" VNone) as [mode | e] eqn:M; simpl;
    [ | apply get_raises in M; subst e; reflexivity ].
  destruct (py_eq mode (VStr "documents")).
  - destruct (get payload "documents" (VList [])) as [documents | e] eqn:D; simpl;
      [ | apply get_raises in D; subst e; reflexivity ].
    destruct (iter documents) as [docs | e] eqn:I; simpl;
      [ | apply iter_raises in I; subst e; reflexivity ].
    destruct (ResearchAgent.normalize_from 0 docs) as [ns | e] eqn:N; simpl;
      [ exact Logic.I | exact (normalize_from_raises docs 0 e N) ].
  - destruct (get payload "query" (VStr "")) as [query | e] eqn:Q; simpl;
      [ exact Logic.I | apply get_raises in Q; subst e; reflexivity ].
Qed.

End Research.

(** ** Research, then summary *)

Section ResearchThenSummarize.

Context `{Jsonschema} `{Builtins}.

Variables (researcher summarizer : BaseAgent.t).

Lemma normal_form_readable (i : nat) (d : value) :
  Spec.doc_ok d = true ->
  Spec.doc_ok (Facts.normal_form i d) = true
  /\ Spec.text_string (Facts.normal_form i d) = Spec.text_string d.
Proof.
  destruct d as [ | | | | | kv ]; try discriminate.
  unfold Spec.doc_ok, Spec.text_string, Facts.normal_form, BaseAgent.cfg_get.
  destruct (dict_lookup "text" kv) as [ [ | | | s | | ] | ]; try discriminate;
    intros _; split; reflexivity.
Qed.

Lemma normal_forms_readable (docs : list value) :
  forall i, forallb Spec.doc_ok docs = true ->
            forallb Spec.doc_ok (Facts.normal_forms i docs) = true
            /\ map Spec.text_string (Facts.normal_forms i docs) = map Spec.text_string docs.
Proof.
  induction docs as [ | d docs IH ]; intros i A; simpl; [ split; reflexivity | ].
  simpl in A. apply andb_true_iff in A. destruct A as [D A].
  destruct (normal_form_readable i d D) as [D' T'].
  destruct (IH (S i) A) as [A' Ts]. rewrite D', A', T', Ts. split; reflexivity.
Qed.

Lemma doc_ok_is_dict (d : value) : Spec.doc_ok d = true -> isinstance_dict d = true.
Proof.
  destruct d; try discriminate. reflexivity.
Qed.

(** X8.  The researcher's output feeds the summarizer: for documents
    that are dicts with string texts, the documents [ResearchAgent] returns
    in the mode ["documents"] are documents [SummarizerAgent] reads, and the
    summary and highlights it makes of them are those it makes of the
    original documents (only the sources differ, by the defaults filled
    in). *)
Theorem research_output_feeds_summarizer (docs out : list value) :
  forallb Spec.doc_ok docs = true ->
  ResearchAgent.execute_task researcher (Facts.provided docs)
  = Ok (VDict [("documents", VList out);
               ("metadata", VDict [("retrieval_mode", VStr "provided")])]) ->
  BaseAgent.validate_input summarizer (VDict [("documents", VList docs)]) = true ->
  BaseAgent.validate_input summarizer (VDict [("documents", VList out)]) = true ->
  exists (summary highlights : value),
    SummarizerAgent.execute_task summarizer (Examples.summarize out)
    = Ok (VDict [("summary", summary); ("highlights", highlights);
                 ("sources", VList (map Spec.source_entry out))])
    /\ SummarizerAgent.execute_task summarizer (Examples.summarize docs)
       = Ok (VDict [("summary", summary); ("highlights", highlights);
                    ("sources", VList (map Spec.source_entry docs))])
    /\ List.length out = List.length docs.
Proof.
  intros W E V1 V2.
  assert (A : forallb isinstance_dict docs = true).
  { apply forallb_forall. intros d I. apply doc_ok_is_dict.
    rewrite forallb_forall in W. exact (W d I). }
  rewrite research_provided in E.
  destruct (BaseAgent.validate_input researcher (Spec.payload_of (Facts.provided docs)));
    [ | discriminate E ].
  rewrite (normalize_from_dicts docs 0 A) in E.
  cbv beta iota delta [bind] in E. injection E as <-.
  destruct (normal_forms_readable docs 0 W) as [W' Ts].
  exists (VStr (SummarizerAgent.truncate
                  (String.concat SummarizerAgent.blank_line (map Spec.text_string docs)))),
         (VList (firstn 3 (map (fun d => VStr (substring 0 200 (Spec.text_string d))) docs))).
  split; [ | split ].
  - rewrite (summarizer_on_documents summarizer
               (Examples.summarize (Facts.normal_forms 0 docs))
               (VDict [("documents", VList (Facts.normal_forms 0 docs))])
               (Facts.normal_forms 0 docs) eq_refl V2 eq_refl W').
    rewrite Ts.
    rewrite <- (map_map Spec.text_string (fun t => VStr (substring 0 200 t))
                  (Facts.normal_forms 0 docs)).
    rewrite Ts, map_map. reflexivity.
  - exact (summarizer_on_documents summarizer (Examples.summarize docs)
             (VDict [("documents", VList docs)]) docs eq_refl V1 eq_refl W).
  - apply normal_forms_length.
Qed.

End ResearchThenSummarize.

(** ** The further properties on concrete agents *)

Section MoreRuns.

#[local] Existing Instance Draft7.jsonschema.

(** X1 at work: every argument given, over a config that names other
    values. *)
Lemma init_explicit_arguments_win_witness :
  (forall l, BaseAgent.arg_agent_tools Facts.explicit_kwargs = Some l ->
             BaseAgent.agent_tools Facts.explicit_agent = l)
  /\ (forall r, BaseAgent.arg_agent_role Facts.explicit_kwargs = Some r ->
                BaseAgent.agent_role Facts.explicit_agent = VStr r)
  /\ (forall i, BaseAgent.arg_interactions Facts.explicit_kwargs = Some i ->
                BaseAgent.interactions Facts.explicit_agent = VStr i)
  /\ (forall v, BaseAgent.arg_vector_store Facts.explicit_kwargs = Some v ->
                BaseAgent.vector_store Facts.explicit_agent = VStr v).
Proof.
  apply (init_explicit_arguments_win (BaseAgent.ForeignClass "MyAgent")
           Facts.explicit_kwargs Facts.explicit_agent).
  reflexivity.
Defined.

(** X2 at work: a summarizer constructed with the required arguments
    only. *)
Lemma init_without_capabilities_handles_nothing_witness :
  BaseAgent.capabilities Facts.bare_agent = []
  /\ forall task, BaseAgent.can_handle Facts.bare_agent task = Ok false.
Proof.
  apply (init_without_capabilities_handles_nothing BaseAgent.SummarizerAgentClass
           (BaseAgent.defaults "Summ" "" "test" 1) Facts.bare_agent); reflexivity.
Defined.

(** X3 at work: ["capabilities": "summarize_text"]. *)
Lemma init_string_capabilities_are_split_witness :
  BaseAgent.capabilities Facts.string_caps_agent = chars "summarize_text"
  /\ (String.length "summarize_text" <> 1 ->
      forall d, dict_lookup "task_type" d = Some (VStr "summarize_text") ->
                BaseAgent.can_handle Facts.string_caps_agent (VDict d) = Ok false).
Proof.
  apply (init_string_capabilities_are_split BaseAgent.SummarizerAgentClass
           (Examples.kwargs "S" 1 Facts.string_caps_cfg) Facts.string_caps_agent
           "summarize_text"); reflexivity.
Defined.

(** X4 at work: ["capabilities": null]. *)
Lemma init_raises_on_scalar_lists_witness :
  exists e,
    BaseAgent.__init__ BaseAgent.SummarizerAgentClass
      (Examples.kwargs "N" 1 Facts.null_caps_cfg) = Raise e.
Proof.
  apply (init_raises_on_scalar_lists BaseAgent.SummarizerAgentClass
           (Examples.kwargs "N" 1 Facts.null_caps_cfg) VNone).
  - reflexivity.
  - left. reflexivity.
Defined.

(** X5 at work: ["rag": "pinecone"] under a call that gives
    [rag_enabled=True] and a vector store. *)
Lemma init_reads_rag_entry_lazily_witness :
  (truthy (BaseAgent.arg_rag_enabled Facts.explicit_over_string_rag) = false ->
   exists e,
     BaseAgent.__init__ (BaseAgent.ForeignClass "MyAgent") Facts.explicit_over_string_rag
     = Raise e)
  /\ (truthy (BaseAgent.arg_rag_enabled Facts.explicit_over_string_rag) = true ->
      forall s tools caps,
        BaseAgent.arg_vector_store Facts.explicit_over_string_rag = Some s ->
        Ok [VStr "calculator"; VStr "notepad"] = Ok tools ->
        Ok (@nil value) = Ok caps ->
        exists self,
          BaseAgent.__init__ (BaseAgent.ForeignClass "MyAgent")
            Facts.explicit_over_string_rag = Ok self
          /\ BaseAgent.rag_enabled self = true
          /\ BaseAgent.vector_store self = VStr s).
Proof.
  apply (init_reads_rag_entry_lazily (BaseAgent.ForeignClass "MyAgent")
           Facts.explicit_over_string_rag (VStr "pinecone")); reflexivity.
Defined.

(** X7 at work: the planner's task, with its [summary_length], and a task
    without. *)
Lemma summarizer_reads_documents_only_witness :
  SummarizerAgent.execute_task Examples.plain_summarizer Examples.t1
  = SummarizerAgent.execute_task Examples.plain_summarizer (Examples.summarize []).
Proof.
  apply (@summarizer_reads_documents_only Draft7.jsonschema Examples.plain_summarizer
           Examples.t1 (Examples.summarize [])
           (Spec.payload_of Examples.t1) (Spec.payload_of (Examples.summarize [])));
    reflexivity.
Defined.

(** X13 at work: two tasks under the id ["t1"]; the mapping has one
    entry. *)
Lemma loop_result_covers_every_task_witness :
  (forall task, In task Facts.same_id_tasks ->
     exists id, getitem task "task_id" = Ok id
                /\ Facts.has_entry id [(VStr "t1", Facts.empty_summary)] = true)
  /\ (forall k, Facts.has_entry k [] = true ->
                Facts.has_entry k [(VStr "t1", Facts.empty_summary)] = true)
  /\ List.length [(VStr "t1", Facts.empty_summary)]
     <= List.length (@nil (value * value)) + List.length Facts.same_id_tasks.
Proof.
  apply (@loop_result_covers_every_task Draft7.jsonschema Examples.offline
           (Examples.planner [Examples.plain_summarizer]) Facts.same_id_tasks []
           [(VStr "t1", Facts.empty_summary)] Examples.offline_start
           (Examples.offline_after Facts.same_id_trace)).
  reflexivity.
Defined.

(** X14 at work: the second of the two tasks overwrites the first. *)
Lemma loop_keeps_the_last_result_witness :
  exists acc' s0 agent r id,
    PlannerAgent.execute_tasks (H0 := Examples.offline)
      (Examples.planner [Examples.plain_summarizer])
      [Examples.summarize [Examples.doc1]] [] Examples.offline_start = (Ok acc', s0)
    /\ PlannerAgent.select_agent_for_task (Examples.planner [Examples.plain_summarizer])
         Examples.t1 = Ok (Some agent)
    /\ PlannerAgent.dispatch_task agent Examples.t1 s0
       = (Ok r, Examples.offline_after Facts.same_id_trace)
    /\ getitem Examples.t1 "task_id" = Ok id
    /\ PlannerAgent.lookup id [(VStr "t1", Facts.empty_summary)] = Some r.
Proof.
  apply (@loop_keeps_the_last_result Draft7.jsonschema Examples.offline
           (Examples.planner [Examples.plain_summarizer])
           [Examples.summarize [Examples.doc1]] Examples.t1 []
           [(VStr "t1", Facts.empty_summary)] Examples.offline_start
           (Examples.offline_after Facts.same_id_trace)).
  reflexivity.
Defined.

(** X15 at work: the demo's planner, no registry passed. *)
Lemma planner_without_registry_cannot_plan_witness :
  PlannerAgent.registry Facts.lone_planner = []
  /\ PlannerAgent.plan_and_execute (H0 := Examples.offline) Facts.lone_planner
       "Summarize recent papers" Examples.offline_start
     = (Raise (PlannerAgent.no_agent_available (VStr "t1")), Examples.offline_start).
Proof.
  apply (@planner_without_registry_cannot_plan Draft7.jsonschema Examples.offline
           (Examples.kwargs "Planner Agent" 1 Examples.planner_cfg) None
           Facts.lone_planner "Summarize recent papers" Examples.offline_start).
  - reflexivity.
  - left. reflexivity.
Defined.

(** X16 at work: the plain summarizer, which has no output schema. *)
Lemma plan_with_summarizer_ignores_goal_witness :
  PlannerAgent.plan_and_execute (H0 := Examples.offline)
    (Examples.planner [Examples.plain_summarizer])
    "Summarize recent papers about retrieval-augmented generation" Examples.offline_start
  = (if truthy (BaseAgent.output_schema Examples.plain_summarizer)
        && negb (jsonschema_validate Facts.empty_summary
                   (BaseAgent.output_schema Examples.plain_summarizer))
     then Raise PlannerAgent.output_validation_failed
     else Ok [(VStr "t1", Facts.empty_summary)],
     Examples.offline_after
       (PlannerAgent.trace Examples.offline_start
        ++ [PlannerAgent.Dispatched Examples.plain_summarizer Examples.t1])).
Proof.
  apply (@plan_with_summarizer_ignores_goal Draft7.jsonschema Examples.offline
           (Examples.planner [Examples.plain_summarizer])
           "Summarize recent papers about retrieval-augmented generation"
           Examples.offline_start Examples.t1 Examples.plain_summarizer).
  - left. reflexivity.
  - reflexivity.
  - reflexivity.
Defined.

#[local] Existing Instance Facts.no_repr.

(** X17 at work: the test's researcher on a document with a text only and
    on the test's second document. *)
Lemma research_normalizes_documents_witness :
  exists out : list value,
    ResearchAgent.execute_task Facts.research_agent
      (Facts.retrieve [Facts.bare_doc; Examples.doc2])
    = Ok (VDict [("documents", VList out);
                 ("metadata", VDict [("retrieval_mode", VStr "provided")])])
    /\ List.length out = List.length [Facts.bare_doc; Examples.doc2]
    /\ forall n kv,
         nth_error [Facts.bare_doc; Examples.doc2] n = Some (VDict kv) ->
         nth_error out n
         = Some (VDict
                   [("id", BaseAgent.cfg_get kv "id" (VStr (ResearchAgent.doc_name n)));
                    ("title",
                     BaseAgent.cfg_get kv "title"
                       (BaseAgent.cfg_get kv "id" (VStr (ResearchAgent.doc_name n))));
                    ("text", BaseAgent.cfg_get kv "text" (VStr ""));
                    ("source", BaseAgent.cfg_get kv "source" VNone)]).
Proof.
  apply (@research_normalizes_documents Draft7.jsonschema Facts.no_repr
           Facts.research_agent (Facts.retrieve [Facts.bare_doc; Examples.doc2])
           (Spec.payload_of (Facts.retrieve [Facts.bare_doc; Examples.doc2]))
           [Facts.bare_doc; Examples.doc2]); reflexivity.
Defined.

(** X18 at work: the researcher's output, given back to it. *)
Lemma research_normalization_is_idempotent_witness :
  ResearchAgent.execute_task Facts.research_agent (Facts.provided Facts.normalized_pair)
  = Ok (VDict [("documents", VList Facts.normalized_pair);
               ("metadata", VDict [("retrieval_mode", VStr "provided")])]).
Proof.
  apply (@research_normalization_is_idempotent Draft7.jsonschema Facts.no_repr
           Facts.research_agent [Facts.bare_doc; Examples.doc2] Facts.normalized_pair);
    reflexivity.
Defined.

(** X19 at work: the mode ["query"]. *)
Lemma research_simulates_other_modes_witness :
  exists title text : string,
    ResearchAgent.execute_task Facts.research_agent
      (VDict [("payload", VDict Facts.query_payload)])
    = Ok (VDict [("documents",
                  VList [VDict [("id", VStr "sim-1"); ("title", VStr title);
                                ("text", VStr text); ("source", VStr "simulator")]]);
                 ("metadata",
                  VDict [("query", BaseAgent.cfg_get Facts.query_payload "query" (VStr ""))])])
    /\ forall q, BaseAgent.cfg_get Facts.query_payload "query" (VStr "") = VStr q ->
                 title = ("Result for: " ++ q)%string
                 /\ text = ("Simulated content for query '" ++ q ++ "'")%string.
Proof.
  apply (@research_simulates_other_modes Draft7.jsonschema Facts.no_repr
           Facts.research_agent (VDict [("payload", VDict Facts.query_payload)])
           Facts.query_payload); reflexivity.
Defined.

(** X8 at work: the integration test, with a document that has a text
    only. *)
Lemma research_output_feeds_summarizer_witness :
  exists (summary highlights : value),
    SummarizerAgent.execute_task Examples.tested_summarizer
      (Examples.summarize Facts.normalized_pair)
    = Ok (VDict [("summary", summary); ("highlights", highlights);
                 ("sources", VList (map Spec.source_entry Facts.normalized_pair))])
    /\ SummarizerAgent.execute_task Examples.tested_summarizer
         (Examples.summarize [Facts.bare_doc; Examples.doc2])
       = Ok (VDict [("summary", summary); ("highlights", highlights);
                    ("sources",
                     VList (map Spec.source_entry [Facts.bare_doc; Examples.doc2]))])
    /\ List.length Facts.normalized_pair = List.length [Facts.bare_doc; Examples.doc2].
Proof.
  apply (@research_output_feeds_summarizer Draft7.jsonschema Facts.no_repr
           Facts.research_agent Examples.tested_summarizer
           [Facts.bare_doc; Examples.doc2] Facts.normalized_pair); reflexivity.
Defined.

End MoreRuns.
